(** * Sheet music to slide deck: a shallow embedding of the lyric pipeline

    The development follows [run_gpt4.py] (class [SheetMusicToPresentation]
    and [process_sheet_music_with_gpt4]), [run_gpt4_cli.py] and
    [simple_web.py].

    Conventions of the embedding.
    - A Python [str] is a [string]; the text handled is taken to be ASCII
      (so [upper] and [isspace] are the ASCII parts of [str.upper] and
      [str.isspace]).
    - A lyric dict is the record [Lyric]; its values are typed as in the
      data model ([text] and [section] strings, [line_number] and [page]
      integers) and a field is [None] when the key is absent, which is what
      [dict.get(key, default)] observes.
    - The language model, the image codec, the JSON reader and the
      document libraries are collaborators of the program: each is a class
      whose methods the program calls, and the properties hold for every
      instance.
    - [try]/[except] is an [Outcome]; the files and the state of the remote
      service are passed explicitly. *)

From Stdlib Require Import String Ascii ZArith List Lia Bool Sorted.
From stdpp Require Import base gmap strings list.
From Equations Require Import Equations.
Import ListNotations.

Set Default Proof Using "Type".

(* ===================================================================== *)
(** ** Python string methods used by the program *)
(* ===================================================================== *)

Module PyStr.

Definition nl : ascii := "010"%char.

(** [str.isspace] on one ASCII character: tab, line feed, vertical tab,
    form feed, carriage return, the separators 28..31 and the space. *)
Definition isspace (c : ascii) : bool :=
  let n := nat_of_ascii c in
  ((9 <=? n) && (n <=? 13)) || ((28 <=? n) && (n <=? 32)).

Definition nonempty (s : string) : bool :=
  match s with EmptyString => false | String _ _ => true end.

(** [s.split(sep)] for a separator of one character. *)
Fixpoint split (sep : ascii) (s : string) : list string :=
  match s with
  | EmptyString => [EmptyString]
  | String c r =>
      if Ascii.eqb c sep then EmptyString :: split sep r
      else match split sep r with
           | h :: t => String c h :: t
           | [] => [String c EmptyString]
           end
  end.

(** [sep.join(l)]. *)
Fixpoint join (sep : string) (l : list string) : string :=
  match l with
  | [] => EmptyString
  | [x] => x
  | x :: t => x +:+ sep +:+ join sep t
  end.

Fixpoint lstrip (s : string) : string :=
  match s with
  | EmptyString => EmptyString
  | String c r => if isspace c then lstrip r else s
  end.

Fixpoint rstrip (s : string) : string :=
  match s with
  | EmptyString => EmptyString
  | String c r =>
      match rstrip r with
      | EmptyString => if isspace c then EmptyString else String c EmptyString
      | r' => String c r'
      end
  end.

(** [s.strip()]. *)
Definition strip (s : string) : string := rstrip (lstrip s).

Definition upper_char (c : ascii) : ascii :=
  let n := nat_of_ascii c in
  if (97 <=? n) && (n <=? 122) then ascii_of_nat (n - 32) else c.

(** [s.upper()]. *)
Fixpoint upper (s : string) : string :=
  match s with
  | EmptyString => EmptyString
  | String c r => String (upper_char c) (upper r)
  end.

(** [s.startswith(p)]. *)
Fixpoint startswith (p s : string) : bool :=
  match p, s with
  | EmptyString, _ => true
  | String a p', String b s' => Ascii.eqb a b && startswith p' s'
  | String _ _, EmptyString => false
  end.

(** [sub in s]. *)
Fixpoint contains (sub s : string) : bool :=
  startswith sub s ||
  match s with
  | EmptyString => false
  | String _ r => contains sub r
  end.

(** [s.endswith(p)]. *)
Fixpoint endswith (p s : string) : bool :=
  String.eqb p s ||
  match s with
  | EmptyString => false
  | String _ r => endswith p r
  end.

(** [s.replace(old, new)] for a non-empty [old]: occurrences are replaced
    from the left and do not overlap; [skip] counts the characters of a
    matched occurrence still to be passed over. *)
Fixpoint replace_from (old new : string) (skip : nat) (s : string) : string :=
  match s with
  | EmptyString => EmptyString
  | String c r =>
      match skip with
      | S k => replace_from old new k r
      | O =>
          if startswith old s
          then new +:+ replace_from old new (String.length old - 1) r
          else String c (replace_from old new 0 r)
      end
  end.

Definition replace (old new s : string) : string := replace_from old new 0 s.

(** [s[:n]]. *)
Fixpoint take (n : nat) (s : string) : string :=
  match n, s with
  | S k, String c r => String c (take k r)
  | _, _ => EmptyString
  end.

Definition has_nl (s : string) : bool := contains (String nl EmptyString) s.

End PyStr.

(* ===================================================================== *)
(** ** Data model *)
(* ===================================================================== *)

(** A lyric dict: LyricFragment, CombinedBlock, ReformattedBlock and the
    entries of a SlideSegment are all dicts with (some of) these keys. *)
Record Lyric : Type := mkLyric {
  text : option string;
  section : option string;
  line_number : option Z;
  page : option Z
}.

(** [lyric.get('text', '')] and its siblings. *)
Definition get_text (l : Lyric) : string := default EmptyString (text l).
Definition get_section (l : Lyric) : string := default EmptyString (section l).
Definition get_line_number (l : Lyric) : Z := default 1%Z (line_number l).
Definition get_page (l : Lyric) : Z := default 1%Z (page l).

(** One element of [all_page_lyrics]: [{'page': n, 'lyrics': [...]}]. *)
Record PageData : Type := mkPageData {
  pd_page : Z;
  lyrics : list Lyric
}.

(* ===================================================================== *)
(** ** Cross-page combiner: [_combine_pages_lyrics] *)
(* ===================================================================== *)

(** The three local variables of the loop.  [current_section] starts as
    Python's [None], which differs from every section string. *)
Record CombineState : Type := mkCombineState {
  combined : list Lyric;
  current_section : option string;
  current_text : list string
}.

Definition combine_init : CombineState :=
  {| combined := []; current_section := None; current_text := [] |}.

(** [section != current_section]. *)
Definition section_differs (sec : string) (cur : option string) : bool :=
  match cur with
  | None => true
  | Some c => negb (String.eqb sec c)
  end.

(** [bool(current_text)]. *)
Definition pending (acc : list string) : bool :=
  match acc with [] => false | _ :: _ => true end.

(** The block appended by a flush.  The dict stores [current_section] as
    it is; [flush_section_set] shows it is always a string there. *)
Definition flush_block (st : CombineState) : Lyric :=
  {| text := Some (PyStr.join (String PyStr.nl EmptyString) (current_text st));
     section := current_section st;
     line_number := Some (Z.of_nat (length (combined st)) + 1)%Z;
     page := None |}.

Definition flushes (st : CombineState) (lyric : Lyric) : bool :=
  section_differs (get_section lyric) (current_section st)
  && pending (current_text st).

(** Body of the inner [for lyric in page_data['lyrics']]. *)
Definition combine_step (st : CombineState) (lyric : Lyric) : CombineState :=
  let section := get_section lyric in
  let text := get_text lyric in
  let st1 :=
    if flushes st lyric
    then {| combined := combined st ++ [flush_block st];
            current_section := current_section st;
            current_text := [] |}
    else st in
  {| combined := combined st1;
     current_section := Some section;
     current_text := if PyStr.nonempty text
                     then current_text st1 ++ [text]
                     else current_text st1 |}.

Definition combine_page (st : CombineState) (page_data : PageData) : CombineState :=
  fold_left combine_step (lyrics page_data) st.

Definition combine_finish (st : CombineState) : list Lyric :=
  if pending (current_text st)
  then combined st ++ [flush_block st]
  else combined st.

Definition _combine_pages_lyrics (all_page_lyrics : list PageData) : list Lyric :=
  combine_finish (fold_left combine_page all_page_lyrics combine_init).

(** The fragment stream: page order, then in-page order. *)
Definition fragments (all_page_lyrics : list PageData) : list Lyric :=
  concat (map lyrics all_page_lyrics).

(** Lines of a list of blocks: each text split on line breaks. *)
Definition block_lines (blocks : list Lyric) : list string :=
  concat (map (fun b => PyStr.split PyStr.nl (get_text b)) blocks).

(** The non-empty text values of a fragment stream. *)
Definition nonempty_texts (frags : list Lyric) : list string :=
  List.filter PyStr.nonempty (map get_text frags).

(** The lines a state stands for: those of the blocks already flushed,
    then those of the texts still in the accumulator. *)
Definition state_lines (st : CombineState) : list string :=
  block_lines (combined st)
  ++ concat (map (PyStr.split PyStr.nl) (current_text st)).

(** Blocks are numbered 1, 2, ... in the order they are flushed. *)
Definition numbered (blocks : list Lyric) : Prop :=
  map line_number blocks
  = map (fun i => Some (Z.of_nat i)) (seq 1 (length blocks)).

(** ['section'] is present and is a string. *)
Definition has_section (block : Lyric) : bool :=
  match section block with Some _ => true | None => false end.

(** A non-empty accumulator was filled after [current_section] was set,
    so a flushed block always stores a section string. *)
Definition section_set (st : CombineState) : Prop :=
  forallb has_section (combined st) = true
  /\ (pending (current_text st) = true -> exists sec, current_section st = Some sec).

(** Number of fragments at which the loop flushes, from state [st]. *)
Fixpoint flush_count (st : CombineState) (frags : list Lyric) : nat :=
  match frags with
  | [] => 0
  | f :: rest =>
      (if flushes st f then 1 else 0) + flush_count (combine_step st f) rest
  end.

(* ===================================================================== *)
(** ** Organizer and slide segmenter *)
(* ===================================================================== *)

(** [_organize_lyrics]: entries whose stripped text is empty are skipped. *)
Definition _organize_lyrics (all_lyrics : list Lyric) : list Lyric :=
  List.filter (fun lyric => PyStr.nonempty (PyStr.strip (get_text lyric))) all_lyrics.

(** The entry built for one line of a block. *)
Definition line_entry (lyric : Lyric) (line : string) : Lyric :=
  {| text := Some line;
     section := Some (get_section lyric);
     line_number := Some (get_line_number lyric);
     page := Some (get_page lyric) |}.

(** Body of [for lyric in self.lyrics_data]: the segments appended for one
    block, one single-entry segment per line that is non-empty once
    stripped. *)
Definition segment_block (lyric : Lyric) : list (list Lyric) :=
  flat_map
    (fun line =>
       let line := PyStr.strip line in
       if PyStr.nonempty line then [[line_entry lyric line]] else [])
    (PyStr.split PyStr.nl (get_text lyric)).

(** [segment_lyrics_for_slides]; [self.lyrics_data] is the first argument.
    The parameter [max_lines_per_slide] is not read by the code. *)
Definition segment_lyrics_for_slides
    (lyrics_data : list Lyric) (max_lines_per_slide : Z) : list (list Lyric) :=
  match lyrics_data with
  | [] => []
  | _ :: _ => flat_map segment_block lyrics_data
  end.

(** Texts of all entries of all segments, in order. *)
Definition segment_texts (segments : list (list Lyric)) : list string :=
  map get_text (concat segments).

(** A line is blank when nothing is left of it after [strip]. *)
Definition nonblank (line : string) : bool := PyStr.nonempty (PyStr.strip line).

(* ===================================================================== *)
(** ** Text exporter: [export_lyrics_to_text] *)
(* ===================================================================== *)

(** Outcome of code that may raise; [Raise] carries [str(e)]. *)
Inductive Outcome (A : Type) : Type :=
| Ok (a : A)
| Raise (msg : string).
Arguments Ok {A} a.
Arguments Raise {A} msg.

Definition header (section : string) : string :=
  String PyStr.nl ("[" +:+ PyStr.upper section +:+ "]" +:+ String PyStr.nl EmptyString).

(** State of the export loop: what has been written to the file so far and
    the local [current_section] ([None] before the first header). *)
Record ExportState : Type := mkExportState {
  written : string;
  export_section : option string
}.

Definition writes_header (st : ExportState) (lyric : Lyric) : bool :=
  PyStr.nonempty (get_section lyric)
  && section_differs (get_section lyric) (export_section st).

(** ['text' in lyric]. *)
Definition has_text (lyric : Lyric) : bool :=
  match text lyric with Some _ => true | None => false end.

(** Body of the export loop; [lyric['text']] raises [KeyError] when the
    key is absent, after a header has possibly been written. *)
Definition export_step (st : ExportState) (lyric : Lyric) : Outcome unit * ExportState :=
  let section := get_section lyric in
  let st1 :=
    if writes_header st lyric
    then {| written := written st +:+ header section;
            export_section := Some section |}
    else st in
  match text lyric with
  | Some t =>
      (Ok tt, {| written := written st1 +:+ t +:+ String PyStr.nl EmptyString;
                 export_section := export_section st1 |})
  | None => (Raise "'text'", st1)
  end.

Fixpoint export_loop (st : ExportState) (lyrics_data : list Lyric)
  : Outcome unit * ExportState :=
  match lyrics_data with
  | [] => (Ok tt, st)
  | lyric :: rest =>
      match export_step st lyric with
      | (Ok _, st') => export_loop st' rest
      | (Raise e, st') => (Raise e, st')
      end
  end.

Definition export_init : ExportState :=
  {| written := EmptyString; export_section := None |}.

(** Content of the exported file once the loop is over (also what the
    file holds if the loop raised). *)
Definition export_lyrics_text (lyrics_data : list Lyric) : Outcome unit * string :=
  let '(r, st) := export_loop export_init lyrics_data in (r, written st).

(* ===================================================================== *)
(** ** The language-model service *)
(* ===================================================================== *)

(** A request to [client.chat.completions.create].  The fixed wording of
    the three prompts is not spelled out: a request is its kind together
    with the values interpolated into its prompt. *)
Inductive Request : Type :=
| VisionRequest (img_base64 : string)
| ReferenceRequest (search_text : string)
| ReformatRequest (reference_structure : option string) (text : string).

(** The text and vision capability.  [World] is the state of the remote
    service; [chat_create] yields [response.choices[0].message.content] or
    raises (network error, refusal, missing content). *)
Class ModelService : Type := {
  World : Type;
  chat_create : string -> Request -> World -> Outcome string * World
}.

(* ===================================================================== *)
(** ** Poetic reformatter *)
(* ===================================================================== *)

Section Reformatter.
Context `{ModelService}.
Variable api_key : string.

(** Step A: [_get_poem_reference_structure]; any exception gives [None]. *)
Definition _get_poem_reference_structure (extracted_text : string) (w : World)
  : option string * World :=
  let lines := PyStr.split PyStr.nl extracted_text in
  let search_text :=
    if (2 <=? length lines)%nat
    then PyStr.join " " (firstn 2 lines)
    else PyStr.take 100 extracted_text in
  match chat_create api_key (ReferenceRequest search_text) w with
  | (Ok content, w') =>
      let reference_text := PyStr.strip content in
      if PyStr.contains "UNKNOWN" reference_text
      then (None, w')
      else (Some reference_text, w')
  | (Raise _, w') => (None, w')
  end.

(** The prompt of Step B: the branch [if reference_structure:] is taken
    for a reference that is a non-empty string. *)
Definition reformat_request (reference_structure : option string) (text : string) : Request :=
  match reference_structure with
  | Some r => if PyStr.nonempty r then ReformatRequest (Some r) text
              else ReformatRequest None text
  | None => ReformatRequest None text
  end.

(** Step B alone: the reformatting call made for [lyric] once Step A has
    run in world [w]. *)
Definition step_b (lyric : Lyric) (w : World) : Outcome string * World :=
  let '(reference_structure, w1) := _get_poem_reference_structure (get_text lyric) w in
  chat_create api_key (reformat_request reference_structure (get_text lyric)) w1.

(** Body of the loop of [_reformat_lyrics_poetically]: the entries appended
    for one block (none for an empty text, else exactly one). *)
Definition reformat_one (lyric : Lyric) (w : World) : list Lyric * World :=
  let text := get_text lyric in
  let section := get_section lyric in
  if negb (PyStr.nonempty text) then ([], w)
  else
    match step_b lyric w with
    | (Ok content, w2) =>
        let formatted_text := PyStr.replace "```" EmptyString (PyStr.strip content) in
        ([{| text := Some formatted_text;
             section := Some section;
             line_number := Some (get_line_number lyric);
             page := Some (get_page lyric) |}], w2)
    | (Raise _, w2) => ([lyric], w2)
    end.

Fixpoint _reformat_lyrics_poetically (lyrics_data : list Lyric) (w : World)
  : list Lyric * World :=
  match lyrics_data with
  | [] => ([], w)
  | lyric :: rest =>
      let '(out, w1) := reformat_one lyric w in
      let '(outs, w2) := _reformat_lyrics_poetically rest w1 in
      (out ++ outs, w2)
  end.

End Reformatter.

(* ===================================================================== *)
(** ** Image preparer: [_compress_image] *)
(* ===================================================================== *)

Definition bytes : Type := list Byte.byte.

(** [len(data)]. *)
Definition len (data : bytes) : Z := Z.of_nat (length data).

(** The image library.  [image_open_rgb] is [Image.open] followed by the
    conversion to RGB, [save_jpeg img q] is [img.save] to a fresh buffer
    in JPEG format at quality [q], [resize_half] is the resize to half of
    the width and of the height.  Errors of the codec itself are not
    modelled. *)
Class ImageCodec : Type := {
  Image : Type;
  image_open_rgb : bytes -> Image;
  save_jpeg : Image -> Z -> bytes;
  resize_half : Image -> Image
}.

Section ImagePreparer.
Context `{ImageCodec}.

(** The loop [while quality >= 20]: [Some] buffer when an iteration
    returns, [None] when the loop runs out. *)
Equations? compress_loop (img : Image) (max_size : Z) (quality : Z)
  : option bytes by wf (Z.to_nat quality) lt :=
  compress_loop img max_size quality with Z_le_dec 20 quality => {
    | left _ =>
        if (len (save_jpeg img quality) <=? max_size)%Z
        then Some (save_jpeg img quality)
        else compress_loop img max_size (quality - 10);
    | right _ => None }.
Proof. lia. Qed.

Definition _compress_image (img_data : bytes) (max_size : Z) : bytes :=
  let img := image_open_rgb img_data in
  match compress_loop img max_size 85 with
  | Some compressed_data => compressed_data
  | None => save_jpeg (resize_half img) 70
  end.

(** The quality levels the loop visits. *)
Definition tried_qualities : list Z := [85; 75; 65; 55; 45; 35; 25]%Z.

End ImagePreparer.

(* ===================================================================== *)
(** ** Page lyric extractor: [_extract_lyrics_with_gpt4] *)
(* ===================================================================== *)

(** What [json.loads] returns. *)
#[warnings="-register-all"]
Inductive json : Type :=
| JNull
| JBool (b : bool)
| JInt (z : Z)
| JFloat (lexeme : string)
| JStr (s : string)
| JArr (l : list json)
| JObj (m : gmap string json).

(** [json.loads]: the parsed value, or [Raise] for [JSONDecodeError]. *)
Class JsonReader : Type := {
  json_loads : string -> Outcome json
}.

(** Prefix of [s] up to and including its last closing brace. *)
Fixpoint upto_last_close (s : string) : option string :=
  match s with
  | EmptyString => None
  | String c r =>
      match upto_last_close r with
      | Some p => Some (String c p)
      | None => if Ascii.eqb c "}"%char then Some (String c EmptyString) else None
      end
  end.

(** [re.search(r'\{.*\}', s, re.DOTALL)] and [.group()]: the leftmost
    match starts at the first opening brace and, [.*] being greedy and
    matching line breaks too, runs to the last closing brace after it. *)
Fixpoint re_search_braces (s : string) : option string :=
  match s with
  | EmptyString => None
  | String c r =>
      if Ascii.eqb c "{"%char
      then match upto_last_close r with
           | Some p => Some (String c p)
           | None => None
           end
      else re_search_braces r
  end.

(** [lyric['page'] = page_num] on every element of a list: an element
    that is not a dict raises [TypeError]. *)
Fixpoint set_pages (page_num : Z) (l : list json) : Outcome (list (gmap string json)) :=
  match l with
  | [] => Ok []
  | JObj m :: rest =>
      match set_pages page_num rest with
      | Ok ms => Ok (<["page" := JInt page_num]> m :: ms)
      | Raise e => Raise e
      end
  | _ :: _ => Raise "object does not support item assignment"
  end.

(** The loop over [lyrics_data.get('lyrics', [])] and the value returned.
    A value that cannot be iterated, or whose elements cannot be
    assigned to, raises; the empty string and the empty dict are returned
    as they are, which a caller cannot tell from the empty list. *)
Definition page_lyrics (page_num : Z) (lyrics_data : json)
  : Outcome (list (gmap string json)) :=
  match lyrics_data with
  | JObj m =>
      match default (JArr []) (m !! "lyrics") with
      | JArr l => set_pages page_num l
      | JStr EmptyString => Ok []
      | JObj d => if decide (d = ∅) then Ok [] else Raise "'str' object does not support item assignment"
      | JStr _ => Raise "'str' object does not support item assignment"
      | _ => Raise "object is not iterable"
      end
  | _ => Raise "object has no attribute 'get'"
  end.

Section Extractor.
Context `{ModelService} `{JsonReader}.
Variable api_key : string.

Definition _extract_lyrics_with_gpt4 (img_base64 : string) (page_num : Z) (w : World)
  : list (gmap string json) * World :=
  match chat_create api_key (VisionRequest img_base64) w with
  | (Raise _, w') => ([], w')
  | (Ok response_text, w') =>
      match re_search_braces response_text with
      | Some json_match =>
          match json_loads json_match with
          | Raise _ => ([], w')
          | Ok lyrics_data =>
              match page_lyrics page_num lyrics_data with
              | Ok l => (l, w')
              | Raise _ => ([], w')
              end
          end
      | None => ([], w')
      end
  end.

End Extractor.

(** The typed reading of a fragment dict, as the later stages use it:
    [text] and [section] as strings, [line_number] and [page] as
    integers.  Values of other types are outside the data model and read
    as absent. *)
Definition lyric_of_dict (d : gmap string json) : Lyric :=
  {| text := match d !! "text" with Some (JStr s) => Some s | _ => None end;
     section := match d !! "section" with Some (JStr s) => Some s | _ => None end;
     line_number := match d !! "line_number" with Some (JInt z) => Some z | _ => None end;
     page := match d !! "page" with Some (JInt z) => Some z | _ => None end |}.

(* ===================================================================== *)
(** ** Deck renderer and the pipeline *)
(* ===================================================================== *)

(** One lyric slide: the text, the section shown as label when it is not
    empty, and the counter [slide_num/total_slides]. *)
Record Slide : Type := mkSlide {
  slide_lyrics : string;
  slide_section : string;
  slide_num : Z;
  total_slides : Z
}.

(** The presentation: a title slide, then the lyric slides. *)
Record Deck : Type := mkDeck {
  deck_title : string;
  deck_slides : list Slide
}.

(** The document libraries: [fitz_open] reads a PDF from its bytes (or
    raises), [get_pixmap_png page dpi] renders a page to PNG,
    [b64encode] is the base64 text of a buffer and [pptx_bytes] the file
    that [prs.save] writes for a deck. *)
Class Documents : Type := {
  Page : Type;
  fitz_open : bytes -> Outcome (list Page);
  get_pixmap_png : Page -> Z -> bytes;
  b64encode : bytes -> string;
  pptx_bytes : Deck -> bytes
}.

(** The state a run acts on: the files (path to content) and the remote
    service.  The map records regular files only: a path exists when it is
    a key, and reading, writing and removing a file never fail, so the
    branches of the handlers that answer operating-system errors are not
    reached and are left out. *)
Record Sys `{ModelService} : Type := mkSys {
  files : gmap string bytes;
  world : World
}.

Section Pipeline.
Context `{ModelService} `{ImageCodec} `{JsonReader} `{Documents}.

(** The loop [while dpi >= 100] of [extract_lyrics_from_pdf]; [img_data]
    is the buffer of the previous iteration (the loop is entered at 200,
    so the initial value is never the result). *)
Equations? render_loop (page : Page) (max_size : Z) (dpi : Z) (img_data : bytes)
  : bytes by wf (Z.to_nat dpi) lt :=
  render_loop page max_size dpi img_data with Z_le_dec 100 dpi => {
    | left _ =>
        if (len (get_pixmap_png page dpi) <=? max_size)%Z
        then get_pixmap_png page dpi
        else render_loop page max_size (dpi - 50) (get_pixmap_png page dpi);
    | right _ => img_data }.
Proof. lia. Qed.

Definition max_size : Z := (20 * 1024 * 1024)%Z.

(** Image of one page, fitted to [max_size] as far as the fallbacks go. *)
Definition page_image (page : Page) : bytes :=
  let img_data := render_loop page max_size 200 [] in
  if (max_size <? len img_data)%Z
  then _compress_image img_data max_size
  else img_data.

(** Body of [for page_num in range(page_count)]: a page with no lyric
    adds nothing to [all_page_lyrics]. *)
Definition extract_page (api_key : string) (page_num : Z) (page : Page) (w : World)
  : list PageData * World :=
  let img_base64 := b64encode (page_image page) in
  let '(lyrics_on_page, w') :=
    _extract_lyrics_with_gpt4 api_key img_base64 (page_num + 1) w in
  match lyrics_on_page with
  | [] => ([], w')
  | _ :: _ =>
      ([{| pd_page := (page_num + 1)%Z;
           lyrics := map lyric_of_dict lyrics_on_page |}], w')
  end.

Fixpoint extract_pages (api_key : string) (page_num : Z) (pages : list Page) (w : World)
  : list PageData * World :=
  match pages with
  | [] => ([], w)
  | page :: rest =>
      let '(pd, w1) := extract_page api_key page_num page w in
      let '(pds, w2) := extract_pages api_key (page_num + 1) rest w1 in
      (pd ++ pds, w2)
  end.

(** [extract_lyrics_from_pdf]: the value returned is also the new
    [self.lyrics_data].  Opening the document raises when the file is
    missing or is not a PDF. *)
Definition extract_lyrics_from_pdf (api_key pdf_path : string) (s : Sys)
  : Outcome (list Lyric) * Sys :=
  match files s !! pdf_path with
  | None => (Raise ("no such file: " +:+ pdf_path), s)
  | Some data =>
      match fitz_open data with
      | Raise e => (Raise e, s)
      | Ok pages =>
          let '(all_page_lyrics, w1) := extract_pages api_key 0 pages (world s) in
          let combined_lyrics := _combine_pages_lyrics all_page_lyrics in
          let '(lyrics_data, w2) :=
            _reformat_lyrics_poetically api_key (_organize_lyrics combined_lyrics) w1 in
          (Ok lyrics_data, {| files := files s; world := w2 |})
      end
  end.

(** Slides of [create_powerpoint], numbered from 1. *)
Fixpoint lyric_slides (segments : list (list Lyric)) (i total : Z) : list Slide :=
  match segments with
  | [] => []
  | segment :: rest =>
      {| slide_lyrics := PyStr.join (String PyStr.nl EmptyString) (map get_text segment);
         slide_section := match segment with
                          | first :: _ => get_section first
                          | [] => EmptyString
                          end;
         slide_num := i;
         total_slides := total |} :: lyric_slides rest (i + 1) total
  end.

(** [create_powerpoint]: builds the deck, saves it at [output_path] and
    returns the number of lyric slides. *)
Definition create_powerpoint (lyrics_data : list Lyric) (output_path title : string)
    (max_lines_per_slide : Z) (fs : gmap string bytes) : Z * gmap string bytes :=
  let segments := segment_lyrics_for_slides lyrics_data max_lines_per_slide in
  let total := Z.of_nat (length segments) in
  let prs := {| deck_title := title; deck_slides := lyric_slides segments 1 total |} in
  (total, <[output_path := pptx_bytes prs]> fs).

(** [export_lyrics_to_text] on the files: the file is created by [open]
    and holds what was written, also when the loop raises. *)
Definition export_lyrics_to_text (lyrics_data : list Lyric) (output_path : string)
    (fs : gmap string bytes) : Outcome unit * gmap string bytes :=
  let '(r, content) := export_lyrics_text lyrics_data in
  (r, <[output_path := list_byte_of_string content]> fs).

(** [process_sheet_music_with_gpt4].  The result is [Some] processor
    (its [lyrics_data]) or Python's [None] when no lyric was found. *)
Definition process_sheet_music_with_gpt4
    (pdf_path output_pptx api_key title : string)
    (max_lines_per_slide : Z) (export_text : bool) (s : Sys)
  : Outcome (option (list Lyric)) * Sys :=
  match extract_lyrics_from_pdf api_key pdf_path s with
  | (Raise e, s1) => (Raise e, s1)
  | (Ok [], s1) => (Ok None, s1)
  | (Ok lyrics_data, s1) =>
      let '(r, fs2) :=
        if export_text
        then export_lyrics_to_text lyrics_data
               (PyStr.replace ".pptx" "_lyrics.txt" output_pptx) (files s1)
        else (Ok tt, files s1) in
      match r with
      | Raise e => (Raise e, {| files := fs2; world := world s1 |})
      | Ok _ =>
          let title := if PyStr.nonempty title then title else "Lyrics Presentation" in
          let '(_, fs3) :=
            create_powerpoint lyrics_data output_pptx title max_lines_per_slide fs2 in
          (Ok (Some lyrics_data), {| files := fs3; world := world s1 |})
      end
  end.

(* --------------------------------------------------------------------- *)
(** *** Command line: [run_gpt4_cli.py] *)
(* --------------------------------------------------------------------- *)

(** What the script itself prints last, and on which stream. *)
Inductive CliMessage : Type :=
| Usage
| Success
| Error (e : string).

Record CliResult : Type := mkCliResult {
  exit_code : Z;
  message : CliMessage
}.

(** [argv] is [sys.argv], the script name included. *)
Definition cli_main (argv : list string) (s : Sys) : CliResult * Sys :=
  match argv with
  | [_; input_pdf; output_pptx; title; api_key] =>
      match process_sheet_music_with_gpt4 input_pdf output_pptx api_key title 1 true s with
      | (Ok _, s') => ({| exit_code := 0; message := Success |}, s')
      | (Raise e, s') => ({| exit_code := 1; message := Error e |}, s')
      end
  | _ => ({| exit_code := 1; message := Usage |}, s)
  end.

End Pipeline.

(* ===================================================================== *)
(** ** Request front-end: [simple_web.py] *)
(* ===================================================================== *)

Definition UPLOAD_FOLDER : string := "/tmp/uploads".
Definition OUTPUT_FOLDER : string := "/tmp/outputs".

(** [os.path.join(a, b)]: an absolute [b] replaces [a]. *)
Definition os_path_join (a b : string) : string :=
  if PyStr.startswith "/" b then b
  else if PyStr.endswith "/" a || negb (PyStr.nonempty a) then a +:+ b
  else a +:+ "/" +:+ b.

(** [os.path.basename(p)]: what follows the last slash. *)
Fixpoint os_path_basename (p : string) : string :=
  match p with
  | EmptyString => EmptyString
  | String c r =>
      if PyStr.contains "/" p
      then os_path_basename r
      else p
  end.

(** An uploaded file of the multipart form. *)
Record FileStorage : Type := mkFileStorage {
  filename : string;
  stream : bytes
}.

(** The parts of a request that [process] reads. *)
Record ProcessRequest : Type := mkProcessRequest {
  request_files : gmap string FileStorage;
  request_form : gmap string string
}.

Inductive Body : Type :=
| JsonBody (fields : gmap string json)
| TextBody (s : string)
| BytesBody (data : bytes).

Record Response : Type := mkResponse {
  status : Z;
  body : Body;
  headers : list (string * string)
}.

(** [jsonify(d)]. *)
Definition jsonify (d : gmap string json) : Response :=
  {| status := 200; body := JsonBody d; headers := [] |}.

Definition failure (error : string) : Response :=
  jsonify (<["success" := JBool false]> (<["error" := JStr error]> ∅)).

Definition dq : string := String "034"%char EmptyString.

(** The loop that turns the exported text into HTML. *)
Definition html_line (line : string) : string :=
  let stripped := PyStr.strip line in
  if PyStr.startswith "[" stripped && PyStr.endswith "]" stripped
  then "<div class=" +:+ dq +:+ "section-header" +:+ dq +:+ ">" +:+ stripped +:+ "</div>"
  else if PyStr.nonempty stripped then line +:+ "<br>"
  else "<br>".

Definition lyrics_to_html (lyrics_text : string) : string :=
  String.concat EmptyString (map html_line (PyStr.split PyStr.nl lyrics_text)).

Section WebFrontEnd.
Context `{ModelService} `{ImageCodec} `{JsonReader} `{Documents}.

(** [werkzeug.utils.secure_filename]. *)
Variable secure_filename : string -> string.

(** [os.path.exists(p)] followed by [os.remove(p)]. *)
Definition remove_if_exists (p : string) (fs : gmap string bytes) : gmap string bytes :=
  match fs !! p with
  | Some _ => delete p fs
  | None => fs
  end.

(** The handler of [POST /process].  [timestamp] is the value of
    [datetime.now().strftime('%Y%m%d_%H%M%S')] read by the request.
    [ensure_folders] only creates directories, which the file map does
    not record; the outer [except] (answer [Request failed]) is for
    errors of the file system and is not reached here. *)
Definition process (request : ProcessRequest) (timestamp : string) (s : Sys)
  : Response * Sys :=
  match request_files request !! "file" with
  | None => (failure "No file uploaded", s)
  | Some file =>
      if negb (PyStr.nonempty (filename file))
         || negb (PyStr.endswith ".pdf" (filename file))
      then (failure "Please upload a PDF file", s)
      else
        let title := default "Unknown" (request_form request !! "title") in
        let api_key := default EmptyString (request_form request !! "api_key") in
        if negb (PyStr.nonempty api_key)
        then (failure "Please provide an OpenAI API key", s)
        else
          let input_path :=
            os_path_join UPLOAD_FOLDER
              (timestamp +:+ "_" +:+ secure_filename (filename file)) in
          let s1 := {| files := <[input_path := stream file]> (files s);
                       world := world s |} in
          let output_path :=
            os_path_join OUTPUT_FOLDER (timestamp +:+ "_output.pptx") in
          match process_sheet_music_with_gpt4
                  input_path output_path api_key title 1 true s1 with
          | (Ok processor, s2) =>
              let lyrics_path := PyStr.replace ".pptx" "_lyrics.txt" output_path in
              let lyrics_text :=
                match files s2 !! lyrics_path with
                | Some content => string_of_list_byte content
                | None => EmptyString
                end in
              let lyrics_html :=
                match files s2 !! lyrics_path with
                | Some _ => lyrics_to_html lyrics_text
                | None => EmptyString
                end in
              (jsonify (<["success" := JBool true]>
                       (<["lyrics_text" := JStr lyrics_text]>
                       (<["lyrics_html" := JStr lyrics_html]>
                       (<["pptx_path" := JStr (os_path_basename output_path)]> ∅)))),
               {| files := remove_if_exists input_path (files s2);
                  world := world s2 |})
          | (Raise e, s2) =>
              (failure ("Processing failed: " +:+ e),
               {| files := remove_if_exists input_path (files s2);
                  world := world s2 |})
          end
  end.

(** The handler of [GET /download/<path:filename>]; its [except] (answer
    500) is for errors of the file system and is not reached here. *)
Definition download_file (filename : string) (fs : gmap string bytes)
  : Response * gmap string bytes :=
  let file_path := os_path_join OUTPUT_FOLDER filename in
  match fs !! file_path with
  | None => ({| status := 404; body := TextBody "File not found"; headers := [] |}, fs)
  | Some file_data =>
      let response :=
        {| status := 200;
           body := BytesBody file_data;
           headers :=
             [("Content-Type",
               "application/vnd.openxmlformats-officedocument.presentationml.presentation");
              ("Content-Disposition",
               "attachment; filename=lyrics_presentation.pptx")] |} in
      let fs1 := delete file_path fs in
      let lyrics_path := PyStr.replace ".pptx" "_lyrics.txt" file_path in
      (response, remove_if_exists lyrics_path fs1)
  end.

End WebFrontEnd.

(* ===================================================================== *)
(** ** Concrete collaborators, for running the embedding *)
(* ===================================================================== *)

(** A reader for the part of JSON made of objects, arrays, strings
    without escapes, integers and the three literals.  On such texts it is
    [json.loads]; texts with escapes, fractions or exponents are outside
    it.  It is only used to run the extractor on concrete replies. *)
Module MiniJson.

Definition is_ws (c : ascii) : bool :=
  let n := nat_of_ascii c in
  (n =? 32)%nat || (n =? 9)%nat || (n =? 10)%nat || (n =? 13)%nat.

Fixpoint skip_ws (s : string) : string :=
  match s with
  | EmptyString => EmptyString
  | String c r => if is_ws c then skip_ws r else s
  end.

Definition is_digit (c : ascii) : bool :=
  let n := nat_of_ascii c in (48 <=? n)%nat && (n <=? 57)%nat.

(** After the opening quote: the content and what follows the closing
    quote. *)
Fixpoint string_body (s : string) : option (string * string) :=
  match s with
  | EmptyString => None
  | String c r =>
      if Ascii.eqb c "034"%char then Some (EmptyString, r)
      else if Ascii.eqb c "\"%char || (nat_of_ascii c <? 32)%nat then None
      else match string_body r with
           | Some (t, rest) => Some (String c t, rest)
           | None => None
           end
  end.

Fixpoint digits (acc : Z) (s : string) : Z * string :=
  match s with
  | String c r =>
      if is_digit c
      then digits (10 * acc + Z.of_nat (nat_of_ascii c - 48))%Z r
      else (acc, s)
  | EmptyString => (acc, s)
  end.

(** An integer: digits without a leading zero, not followed by a
    fraction or an exponent. *)
Definition unsigned_int (s : string) : option (Z * string) :=
  match s with
  | String c r =>
      if is_digit c
      then
        let '(z, rest) := digits 0 s in
        let leading_zero :=
          Ascii.eqb c "0"%char
          && match r with String d _ => is_digit d | EmptyString => false end in
        let continues :=
          match rest with
          | String d _ => Ascii.eqb d "."%char || Ascii.eqb d "e"%char || Ascii.eqb d "E"%char
          | EmptyString => false
          end in
        if leading_zero || continues then None else Some (z, rest)
      else None
  | EmptyString => None
  end.

Fixpoint drop (n : nat) (s : string) : string :=
  match n, s with
  | S k, String _ r => drop k r
  | _, _ => s
  end.

Fixpoint value (fuel : nat) (s : string) : option (json * string) :=
  match fuel with
  | O => None
  | S f =>
      match skip_ws s with
      | EmptyString => None
      | String c r as s' =>
          if Ascii.eqb c "{"%char then
            match skip_ws r with
            | String d r' =>
                if Ascii.eqb d "}"%char then Some (JObj ∅, r') else members f r ∅
            | EmptyString => None
            end
          else if Ascii.eqb c "["%char then
            match skip_ws r with
            | String d r' =>
                if Ascii.eqb d "]"%char then Some (JArr [], r') else elements f r []
            | EmptyString => None
            end
          else if Ascii.eqb c "034"%char then
            match string_body r with
            | Some (t, rest) => Some (JStr t, rest)
            | None => None
            end
          else if PyStr.startswith "true" s' then Some (JBool true, drop 4 s')
          else if PyStr.startswith "false" s' then Some (JBool false, drop 5 s')
          else if PyStr.startswith "null" s' then Some (JNull, drop 4 s')
          else if Ascii.eqb c "-"%char then
            match unsigned_int r with
            | Some (z, rest) => Some (JInt (- z), rest)
            | None => None
            end
          else
            match unsigned_int s' with
            | Some (z, rest) => Some (JInt z, rest)
            | None => None
            end
      end
  end
with elements (fuel : nat) (s : string) (acc : list json) : option (json * string) :=
  match fuel with
  | O => None
  | S f =>
      match value f s with
      | Some (v, rest) =>
          match skip_ws rest with
          | String c r =>
              if Ascii.eqb c ","%char then elements f r (acc ++ [v])
              else if Ascii.eqb c "]"%char then Some (JArr (acc ++ [v]), r)
              else None
          | EmptyString => None
          end
      | None => None
      end
  end
with members (fuel : nat) (s : string) (acc : gmap string json) : option (json * string) :=
  match fuel with
  | O => None
  | S f =>
      match skip_ws s with
      | String q r =>
          if Ascii.eqb q "034"%char then
            match string_body r with
            | Some (k, rest) =>
                match skip_ws rest with
                | String c r2 =>
                    if Ascii.eqb c ":"%char then
                      match value f r2 with
                      | Some (v, rest2) =>
                          match skip_ws rest2 with
                          | String e r3 =>
                              if Ascii.eqb e ","%char then members f r3 (<[k := v]> acc)
                              else if Ascii.eqb e "}"%char then Some (JObj (<[k := v]> acc), r3)
                              else None
                          | EmptyString => None
                          end
                      | None => None
                      end
                    else None
                | EmptyString => None
                end
            | None => None
            end
          else None
      | EmptyString => None
      end
  end.

Definition loads (s : string) : Outcome json :=
  match value (S (String.length s)) s with
  | Some (v, rest) =>
      match skip_ws rest with
      | EmptyString => Ok v
      | String _ _ => Raise "Extra data"
      end
  | None => Raise "Expecting value"
  end.

#[local] Instance reader : JsonReader := {| json_loads := loads |}.

End MiniJson.

(** Scripted collaborators: canned replies and a toy codec, so that the
    handlers can be run on concrete inputs. *)
Module Stubs.

(** A service that plays a script: each call consumes the next canned
    reply, and raises once the script is over. *)
Definition scripted : ModelService :=
  {| World := list (Outcome string);
     chat_create := fun _ _ script =>
       match script with
       | reply :: rest => (reply, rest)
       | [] => (Raise "connection error", [])
       end |}.

(** A codec whose JPEG size is the quality level in bytes, halved by each
    halving of the image; an image is its number of halvings. *)
Definition toy_codec : ImageCodec :=
  {| Image := nat;
     image_open_rgb := fun _ => 0%nat;
     save_jpeg := fun halvings quality =>
       repeat Byte.x00 (Z.to_nat quality / 2 ^ halvings);
     resize_half := S |}.

(** Toy documents: a non-empty file is a PDF with one page per byte, a
    page rendered at [dpi] is a PNG of [dpi] bytes, and the base64 text
    and the deck file are stand-ins. *)
Definition toy_documents : Documents :=
  {| Page := Byte.byte;
     fitz_open := fun data =>
       match data with
       | [] => Raise "cannot open empty document"
       | _ :: _ => Ok data
       end;
     get_pixmap_png := fun _ dpi => repeat Byte.x00 (Z.to_nat dpi);
     b64encode := string_of_list_byte;
     pptx_bytes := fun deck =>
       list_byte_of_string
         (deck_title deck +:+ String.concat EmptyString (map slide_lyrics (deck_slides deck))) |}.

Definition quoted (s : string) : string := dq +:+ s +:+ dq.

(** A reply of the vision model: a JSON object with one fragment,
    followed by a remark that has braces of its own. *)
Definition reply_with_remark : string :=
  "{" +:+ quoted "lyrics" +:+ ": [{" +:+ quoted "text" +:+ ": " +:+ quoted "la"
  +:+ "}]} {uncertain}".

(** The same object with prose before and after it. *)
Definition reply_with_prose : string :=
  "Here it is: {" +:+ quoted "lyrics" +:+ ": [{" +:+ quoted "text" +:+ ": "
  +:+ quoted "la" +:+ "}]} Done.".

Definition fragment (t s : string) : Lyric :=
  {| text := Some t; section := Some s; line_number := None; page := None |}.

End Stubs.

(* ===================================================================== *)
(** ** Readings of the specification, to compare the code with *)
(* ===================================================================== *)

(** From the words of the specification (4.2, "the first brace-delimited
    JSON object found anywhere in the reply"): the text from the first
    opening brace to the closing brace that balances it. *)
Fixpoint spec_balanced (depth : nat) (s : string) : option string :=
  match s with
  | EmptyString => None
  | String c r =>
      if Ascii.eqb c "}"%char then
        match depth with
        | O => Some (String c EmptyString)
        | S d => option_map (String c) (spec_balanced d r)
        end
      else if Ascii.eqb c "{"%char then option_map (String c) (spec_balanced (S depth) r)
      else option_map (String c) (spec_balanced depth r)
  end.

Fixpoint spec_first_object (s : string) : option string :=
  match s with
  | EmptyString => None
  | String c r =>
      if Ascii.eqb c "{"%char then option_map (String c) (spec_balanced 0 r)
      else spec_first_object r
  end.

(** The extractor as the specification words it: the same steps, with the
    first balanced object as the text handed to the JSON reader. *)
Definition spec_extract_lyrics `{ModelService} `{JsonReader}
    (api_key img_base64 : string) (page_num : Z) (w : World)
  : list (gmap string json) * World :=
  match chat_create api_key (VisionRequest img_base64) w with
  | (Raise _, w') => ([], w')
  | (Ok response_text, w') =>
      match spec_first_object response_text with
      | Some object_text =>
          match json_loads object_text with
          | Raise _ => ([], w')
          | Ok lyrics_data =>
              match page_lyrics page_num lyrics_data with
              | Ok l => (l, w')
              | Raise _ => ([], w')
              end
          end
      | None => ([], w')
      end
  end.

(** From the words of the specification (4.7, "whenever the section value
    changes from the previous entry"): the export in which the header
    test compares with the section of the entry just before. *)
Fixpoint spec_export (previous : option string) (lyrics_data : list Lyric) : string :=
  match lyrics_data with
  | [] => EmptyString
  | lyric :: rest =>
      (if PyStr.nonempty (get_section lyric)
          && section_differs (get_section lyric) previous
       then header (get_section lyric) else EmptyString)
      +:+ get_text lyric +:+ String PyStr.nl EmptyString
      +:+ spec_export (Some (get_section lyric)) rest
  end.

(** The section of the last entry of [done] that has a non-empty one. *)
Definition last_labelled (done : list Lyric) : option string :=
  fold_left
    (fun cur lyric =>
       if PyStr.nonempty (get_section lyric) then Some (get_section lyric) else cur)
    done None.

(** What the export writes for [lyric] when the entries [done] come
    before it: a header when its section is non-empty and is not the one
    of the last labelled entry before it, then the text and a line
    break. *)
Definition export_chunk (done : list Lyric) (lyric : Lyric) : string :=
  (if PyStr.nonempty (get_section lyric)
      && section_differs (get_section lyric) (last_labelled done)
   then header (get_section lyric) else EmptyString)
  +:+ get_text lyric +:+ String PyStr.nl EmptyString.

Fixpoint export_chunks (done rest : list Lyric) : list string :=
  match rest with
  | [] => []
  | lyric :: rest' => export_chunk done lyric :: export_chunks (done ++ [lyric]) rest'
  end.

(* ===================================================================== *)
(** ** Example inputs *)
(* ===================================================================== *)

(** Example pages: two fragments of a verse, a chorus that starts with an
    empty text and goes on over the page break. *)
Definition two_pages : list PageData :=
  [ {| pd_page := 1;
       lyrics := [Stubs.fragment "a" "verse 1"; Stubs.fragment "b" "verse 1";
                  Stubs.fragment EmptyString "chorus"] |};
    {| pd_page := 2; lyrics := [Stubs.fragment "c" "chorus"] |} ].

(** A page whose only fragment holds two lines. *)
Definition two_line_page : list PageData :=
  [ {| pd_page := 1;
       lyrics := [Stubs.fragment ("a" +:+ String PyStr.nl "b") "verse 1"] |} ].

(** A block whose second line is indented and followed by a blank line. *)
Definition indented_block : list Lyric :=
  [ {| text := Some ("a" +:+ String PyStr.nl ("  b " +:+ String PyStr.nl "   "));
       section := Some "verse 1";
       line_number := Some 1%Z;
       page := None |} ].


(** A block of two raw lines, and a script in which the poem is not
    recognized and the reformatting call then fails. *)
Definition raw_block : Lyric :=
  {| text := Some ("my Alice fair," +:+ String PyStr.nl "Her cheek like");
     section := Some "verse 1";
     line_number := Some 1%Z;
     page := None |}.

Definition failing_script : list (Outcome string) :=
  [Ok "UNKNOWN"; Raise "request timed out"].


(** The three entries of the export example: two lines of a verse, then
    one of the chorus. *)
Definition verse_and_chorus : list Lyric :=
  [Stubs.fragment "a" "verse 1"; Stubs.fragment "b" "verse 1";
   Stubs.fragment "c" "chorus"].

(** A verse interrupted by an entry without section. *)
Definition interrupted_verse : list Lyric :=
  [Stubs.fragment "a" "verse 1"; Stubs.fragment "b" EmptyString;
   Stubs.fragment "c" "verse 1"].


(** The fragment dict of the example replies, and the object that holds
    it. *)
Definition la_fragment : gmap string json := <["text" := JStr "la"]> ∅.

Definition la_reply_object : gmap string json :=
  <["lyrics" := JArr [JObj la_fragment]]> ∅.


(** The output folder after one run: a deck and its text export. *)
Definition deck_name : string := "20240101_120000_output.pptx".

Definition one_run_files : gmap string bytes :=
  <["/tmp/outputs/20240101_120000_output.pptx" := [Byte.x50; Byte.x4b]]>
    (<["/tmp/outputs/20240101_120000_output_lyrics.txt" := list_byte_of_string "la"]> ∅).

(** An upload of a PDF with a title and no credential. *)
Definition upload_without_key : ProcessRequest :=
  {| request_files :=
       <["file" := {| filename := "song.pdf"; stream := [Byte.x25; Byte.x50] |}]> ∅;
     request_form := <["title" := "Song"]> ∅ |}.

(** The same upload with a credential. *)
Definition upload_with_key : ProcessRequest :=
  {| request_files :=
       <["file" := {| filename := "song.pdf"; stream := [Byte.x25; Byte.x50] |}]> ∅;
     request_form := <["title" := "Song"]> (<["api_key" := "sk-test"]> ∅) |}.

(** A system with no file, whose service fails every call. *)
Definition offline : @Sys Stubs.scripted :=
  {| files := ∅; world := ([] : @World Stubs.scripted) |}.

(** The same with a PDF of two pages in the working directory. *)
Definition offline_with_pdf : @Sys Stubs.scripted :=
  {| files := <["song.pdf" := [Byte.x25; Byte.x50]]> ∅;
     world := ([] : @World Stubs.scripted) |}.


(* ===================================================================== *)
(** ** Serverless adapter: [lambda_handler.py] *)
(* ===================================================================== *)

(** The event of the gateway: the two keys the handler reads (absent
    keys are [None]) and the other keys, which it passes on. *)
Record LambdaEvent : Type := mkLambdaEvent {
  ev_path : option string;
  ev_httpMethod : option string;
  ev_other : gmap string json
}.

(** The response dict: [headers] may be absent in what the WSGI bridge
    returns. *)
Record LambdaResponse : Type := mkLambdaResponse {
  statusCode : Z;
  resp_headers : option (gmap string string);
  resp_body : string;
  isBase64Encoded : option bool
}.

(** [s[n:]]. *)
Fixpoint slice_from (n : nat) (s : string) : string :=
  match n, s with
  | S k, String _ r => slice_from k r
  | _, _ => s
  end.

Definition ALLOW_ORIGIN : string := "*".
Definition ALLOW_METHODS : string := "GET,POST,OPTIONS".
Definition ALLOW_HEADERS : string :=
  "Content-Type,X-Amz-Date,Authorization,X-Api-Key,X-Amz-Security-Token".

(** The path normalization: a path that starts with [/Prod] loses its
    first five characters. *)
Definition normalize_event (event : LambdaEvent) : LambdaEvent :=
  let path := default EmptyString (ev_path event) in
  if PyStr.startswith "/Prod" path
  then {| ev_path := Some (slice_from 5 path);
          ev_httpMethod := ev_httpMethod event;
          ev_other := ev_other event |}
  else event.

(** The answer to a preflight request. *)
Definition preflight_response : LambdaResponse :=
  {| statusCode := 200;
     resp_headers :=
       Some (<["Access-Control-Allow-Origin" := ALLOW_ORIGIN]>
            (<["Access-Control-Allow-Methods" := ALLOW_METHODS]>
            (<["Access-Control-Allow-Headers" := ALLOW_HEADERS]>
            (<["Access-Control-Max-Age" := "86400"]> ∅))));
     resp_body := EmptyString;
     isBase64Encoded := None |}.

(** The three assignments to [response['headers'][...]], after the
    [headers] dict has been created if it was missing. *)
Definition with_cors (response : LambdaResponse) : LambdaResponse :=
  let h := default ∅ (resp_headers response) in
  {| statusCode := statusCode response;
     resp_headers :=
       Some (<["Access-Control-Allow-Headers" := ALLOW_HEADERS]>
            (<["Access-Control-Allow-Methods" := ALLOW_METHODS]>
            (<["Access-Control-Allow-Origin" := ALLOW_ORIGIN]> h)));
     resp_body := resp_body response;
     isBase64Encoded := isBase64Encoded response |}.

(** [event.get('httpMethod') == 'OPTIONS']. *)
Definition is_options (event : LambdaEvent) : bool :=
  match ev_httpMethod event with
  | Some method => String.eqb method "OPTIONS"
  | None => false
  end.

(** The event with another path. *)
Definition with_path (path : string) (event : LambdaEvent) : LambdaEvent :=
  {| ev_path := Some path;
     ev_httpMethod := ev_httpMethod event;
     ev_other := ev_other event |}.

Section LambdaHandler.

(** [serverless_wsgi.handle_request(app, event, context)]: the WSGI
    bridge and the application behind it, acting on a state of their
    own. *)
Variable AppState : Type.
Variable handle_request : LambdaEvent -> AppState -> LambdaResponse * AppState.

(** [handler(event, context)]. *)
Definition handler (event : LambdaEvent) (st : AppState) : LambdaResponse * AppState :=
  let event := normalize_event event in
  if is_options event then (preflight_response, st)
  else
    let '(response, st') := handle_request event st in
    (with_cors response, st').

End LambdaHandler.


(* ===================================================================== *)
(** ** Auxiliary notions for the further properties *)
(* ===================================================================== *)

(** A list of labels with each run of equal neighbours reduced to one. *)
Fixpoint collapse (l : list string) : list string :=
  match l with
  | [] => []
  | x :: t =>
      match t with
      | [] => [x]
      | y :: _ => if String.eqb x y then collapse t else x :: collapse t
      end
  end.

(** The accumulator and the flushed blocks hold non-empty texts only. *)
Definition texts_nonempty (st : CombineState) : Prop :=
  forallb PyStr.nonempty (current_text st) = true
  /\ forallb (fun b => PyStr.nonempty (get_text b)) (combined st) = true.


(** Two pages: a verse that runs over the page break, a chorus, and the
    verse again. *)
Definition verse_chorus_verse : list PageData :=
  [ {| pd_page := 1;
       lyrics := [Stubs.fragment "a" "verse 1"] |};
    {| pd_page := 2;
       lyrics := [Stubs.fragment "b" "verse 1"; Stubs.fragment "c" "chorus";
                  Stubs.fragment "d" "chorus"; Stubs.fragment "e" "verse 1"] |} ].


(** Number of backticks a string starts with. *)
Fixpoint leading_backticks (s : string) : nat :=
  match s with
  | EmptyString => 0
  | String c r => if Ascii.eqb "`"%char c then S (leading_backticks r) else 0
  end.

(** [bool(lyric.get('text', ''))]. *)
Definition text_nonempty (lyric : Lyric) : bool := PyStr.nonempty (get_text lyric).


(** A reply wrapped in a code fence, and the script that gives it after
    an unrecognized poem. *)
Definition fenced_reply : string :=
  "```" +:+ String PyStr.nl ("my Alice fair, Her cheek like" +:+ String PyStr.nl "```").

Definition fenced_script : list (Outcome string) :=
  [Ok "UNKNOWN"; Ok fenced_reply].


(** A segment made of one entry. *)
Definition single_entry (segment : list Lyric) : bool :=
  match segment with [_] => true | _ => false end.

(** A text that fills one physical line of a slide: not empty, without
    line break, and without white space at its ends. *)
Definition one_line (s : string) : Prop :=
  PyStr.nonempty s = true /\ PyStr.has_nl s = false /\ PyStr.strip s = s.


(** The resolutions the rendering loop visits. *)
Definition tried_dpis : list Z := [200; 150; 100]%Z.

(** Documents whose pages render to a million bytes per DPI unit, above
    the size limit at every resolution. *)
Definition heavy_documents : Documents :=
  {| Page := Byte.byte;
     fitz_open := fun data => Ok data;
     get_pixmap_png := fun _ dpi => repeat Byte.x00 (Z.to_nat (dpi * 1000000));
     b64encode := string_of_list_byte;
     pptx_bytes := fun deck => list_byte_of_string (deck_title deck) |}.


(** The title shown on the deck: the default when none is given. *)
Definition deck_title_for (title : string) : string :=
  if PyStr.nonempty title then title else "Lyrics Presentation".

(** The content of the text export of a list of entries. *)
Definition export_content (lyrics_data : list Lyric) : string :=
  fold_right String.append EmptyString (export_chunks [] lyrics_data).

(** A script for a PDF of two pages: the first page gives one fragment,
    the second call fails, the poem is not recognized and the
    reformatting call returns two lines. *)
Definition working_script : list (Outcome string) :=
  [Ok Stubs.reply_with_prose; Raise "connection reset"; Ok "UNKNOWN";
   Ok ("la la" +:+ String PyStr.nl "la")].

(** A system with the PDF of two pages and that script. *)
Definition online_with_pdf : @Sys Stubs.scripted :=
  {| files := <["song.pdf" := [Byte.x25; Byte.x50]]> ∅;
     world := (working_script : @World Stubs.scripted) |}.

(** A system with no file and that script. *)
Definition online : @Sys Stubs.scripted :=
  {| files := ∅; world := (working_script : @World Stubs.scripted) |}.


(** The block that the working script yields. *)
Definition la_block : Lyric :=
  {| text := Some ("la la" +:+ String PyStr.nl "la");
     section := Some EmptyString;
     line_number := Some 1%Z;
     page := Some 1%Z |}.


(** An upload whose file is empty, which no PDF reader opens. *)
Definition upload_empty_pdf : ProcessRequest :=
  {| request_files :=
       <["file" := {| filename := "song.pdf"; stream := [] |}]> ∅;
     request_form := <["title" := "Song"]> (<["api_key" := "sk-test"]> ∅) |}.

(** An upload of a text file, and a request without upload. *)
Definition upload_text_file : ProcessRequest :=
  {| request_files :=
       <["file" := {| filename := "notes.txt"; stream := [Byte.x25] |}]> ∅;
     request_form := <["api_key" := "sk-test"]> ∅ |}.

Definition no_upload : ProcessRequest :=
  {| request_files := ∅; request_form := <["api_key" := "sk-test"]> ∅ |}.

(** Where [process] saves the upload of a request. *)
Definition upload_path (secure_filename : string -> string)
    (timestamp : string) (file : FileStorage) : string :=
  os_path_join UPLOAD_FOLDER (timestamp +:+ "_" +:+ secure_filename (filename file)).

(** Where [process] has the deck written. *)
Definition deck_path (timestamp : string) : string :=
  os_path_join OUTPUT_FOLDER (timestamp +:+ "_output.pptx").

(** The state in which the pipeline starts: the upload is saved. *)
Definition with_upload `{ModelService} (secure_filename : string -> string)
    (timestamp : string) (file : FileStorage) (s : Sys) : Sys :=
  {| files := <[upload_path secure_filename timestamp file := stream file]> (files s);
     world := world s |}.


(** The file of the upload examples. *)
Definition song_upload : FileStorage :=
  {| filename := "song.pdf"; stream := [Byte.x25; Byte.x50] |}.


(** An application that answers every event with a page, its own value
    for one of the CORS headers, and counts the events it got. *)
Definition counting_app (event : LambdaEvent) (hits : nat) : LambdaResponse * nat :=
  ({| statusCode := 200;
      resp_headers := Some (<["Content-Type" := "text/html"]>
                           (<["Access-Control-Allow-Origin" := "https://example.org"]> ∅));
      resp_body := default "(no path)" (ev_path event);
      isBase64Encoded := Some false |}, S hits).

Definition get_event (path : string) : LambdaEvent :=
  {| ev_path := Some path; ev_httpMethod := Some "GET"; ev_other := ∅ |}.

Definition options_event (path : string) : LambdaEvent :=
  {| ev_path := Some path; ev_httpMethod := Some "OPTIONS"; ev_other := ∅ |}.


(** A JSON value that is a dict. *)
Definition is_object (v : json) : bool :=
  match v with JObj _ => true | _ => false end.

(** A reply whose list of lyrics holds a fragment and a bare number. *)
Definition reply_with_number : string :=
  "{" +:+ Stubs.quoted "lyrics" +:+ ": [{" +:+ Stubs.quoted "text" +:+ ": "
  +:+ Stubs.quoted "la" +:+ "}, 5]}".


(* ===================================================================== *)
(** * Properties *)
(* ===================================================================== *)

(** ** Facts on the string methods *)

Module PyStrFacts.
Import PyStr.

Lemma split_not_nil sep s : split sep s <> [].
Proof.
  destruct s as [|c r]; simpl; [discriminate|].
  destruct (Ascii.eqb c sep); [discriminate|].
  destruct (split sep r); discriminate.
Qed.

Lemma split_app_sep sep a b :
  split sep (a +:+ String sep b) = split sep a ++ split sep b.
Proof.
  induction a as [|c r IH]; simpl.
  - rewrite Ascii.eqb_refl. reflexivity.
  - destruct (Ascii.eqb c sep).
    + rewrite IH. reflexivity.
    + rewrite IH. pose proof (split_not_nil sep r) as Hne.
      destruct (split sep r) as [|h t]; [congruence|]. reflexivity.
Qed.

Lemma split_join_nl x acc :
  split nl (join (String nl EmptyString) (x :: acc))
  = concat (map (split nl) (x :: acc)).
Proof.
  revert x. induction acc as [|y t IH]; intros x.
  - simpl. rewrite app_nil_r. reflexivity.
  - change (join (String nl EmptyString) (x :: y :: t))
      with (x +:+ String nl (join (String nl EmptyString) (y :: t))).
    rewrite split_app_sep, IH. reflexivity.
Qed.

Lemma startswith_nl_head c r :
  startswith (String nl EmptyString) (String c r) = Ascii.eqb nl c.
Proof. simpl. apply andb_true_r. Qed.

Lemma split_no_nl s : has_nl s = false -> split nl s = [s].
Proof.
  unfold has_nl. induction s as [|c r IH]; intros Hn; [reflexivity|].
  cbn [contains] in Hn. rewrite startswith_nl_head in Hn.
  apply orb_false_iff in Hn as [Hc Hr].
  cbn [split]. rewrite Ascii.eqb_sym, Hc, (IH Hr). reflexivity.
Qed.

Lemma concat_split_no_nl l :
  forallb (fun s => negb (has_nl s)) l = true ->
  concat (map (split nl) l) = l.
Proof.
  induction l as [|s t IH]; simpl; [reflexivity|].
  intros Hl. apply andb_true_iff in Hl as [Hs Ht].
  apply negb_true_iff in Hs.
  rewrite (split_no_nl _ Hs), (IH Ht). reflexivity.
Qed.

End PyStrFacts.

(** ** Cross-page combiner *)

Section CombinerFacts.
Import PyStr PyStrFacts.

Lemma block_lines_app b1 b2 :
  block_lines (b1 ++ b2) = block_lines b1 ++ block_lines b2.
Proof. unfold block_lines. rewrite map_app, concat_app. reflexivity. Qed.

Lemma flush_block_lines st :
  pending (current_text st) = true ->
  block_lines [flush_block st] = concat (map (split nl) (current_text st)).
Proof.
  destruct st as [cmb cur acc]; simpl. destruct acc as [|x t]; [discriminate|].
  intros _. unfold block_lines. cbn [map concat flush_block get_text text default].
  cbn [current_text]. rewrite app_nil_r. apply split_join_nl.
Qed.

(** One iteration adds the lines of the fragment's text, if it has one. *)
Lemma combine_step_lines st lyric :
  state_lines (combine_step st lyric)
  = state_lines st
    ++ (if nonempty (get_text lyric) then split nl (get_text lyric) else []).
Proof.
  unfold combine_step, state_lines. destruct (flushes st lyric) eqn:Hf.
  - apply andb_true_iff in Hf as [_ Hp]. cbn [combined current_text].
    rewrite block_lines_app, (flush_block_lines _ Hp).
    destruct (nonempty (get_text lyric)); cbn [app map concat];
      rewrite ?app_nil_r, <- ?app_assoc; reflexivity.
  - destruct (nonempty (get_text lyric)); cbn [combined current_text].
    + rewrite map_app, concat_app. cbn [map concat].
      rewrite app_nil_r, app_assoc. reflexivity.
    + rewrite app_nil_r. reflexivity.
Qed.

Lemma combine_loop_lines frags st :
  state_lines (fold_left combine_step frags st)
  = state_lines st ++ concat (map (split nl) (nonempty_texts frags)).
Proof.
  revert st. induction frags as [|f rest IH]; intros st.
  - simpl. rewrite app_nil_r. reflexivity.
  - cbn [fold_left]. rewrite IH, combine_step_lines.
    unfold nonempty_texts. cbn [map List.filter].
    destruct (nonempty (get_text f)); cbn [map concat];
      rewrite <- ?app_assoc, ?app_nil_r; reflexivity.
Qed.

(** The two nested loops visit the fragment stream. *)
Lemma combine_pages_stream pages st :
  fold_left combine_page pages st = fold_left combine_step (fragments pages) st.
Proof.
  revert st. induction pages as [|p rest IH]; intros st; [reflexivity|].
  unfold fragments. cbn [map concat fold_left]. rewrite fold_left_app.
  apply IH.
Qed.

Lemma combine_finish_lines st :
  block_lines (combine_finish st) = state_lines st.
Proof.
  unfold combine_finish, state_lines.
  destruct (pending (current_text st)) eqn:Hp.
  - rewrite block_lines_app, (flush_block_lines _ Hp). reflexivity.
  - destruct (current_text st); [|discriminate].
    simpl. rewrite app_nil_r. reflexivity.
Qed.

Lemma combine_step_count st lyric :
  length (combined (combine_step st lyric))
  = (length (combined st) + (if flushes st lyric then 1 else 0))%nat.
Proof.
  unfold combine_step. destruct (flushes st lyric); cbn [combined].
  - rewrite length_app. reflexivity.
  - lia.
Qed.

Lemma combine_loop_count frags st :
  length (combined (fold_left combine_step frags st))
  = (length (combined st) + flush_count st frags)%nat.
Proof.
  revert st. induction frags as [|f rest IH]; intros st; cbn [fold_left flush_count].
  - lia.
  - rewrite IH, combine_step_count. lia.
Qed.

Lemma numbered_snoc blocks st :
  combined st = blocks -> numbered blocks -> numbered (blocks ++ [flush_block st]).
Proof.
  intros Hc Hn. unfold numbered in *.
  rewrite map_app, length_app, Hn. cbn [length map].
  rewrite Nat.add_1_r, seq_S, map_app. cbn [map flush_block line_number].
  rewrite Hc. do 3 f_equal. lia.
Qed.

Lemma combine_step_numbered st lyric :
  numbered (combined st) -> numbered (combined (combine_step st lyric)).
Proof.
  intros Hn. unfold combine_step. destruct (flushes st lyric); cbn [combined].
  - by apply numbered_snoc.
  - exact Hn.
Qed.

Lemma combine_pages_numbered pages :
  numbered (_combine_pages_lyrics pages).
Proof.
  unfold _combine_pages_lyrics. rewrite combine_pages_stream.
  assert (Hn : numbered (combined (fold_left combine_step (fragments pages) combine_init))).
  { generalize (fragments pages) as frags.
    assert (H0 : numbered (combined combine_init)) by reflexivity.
    revert H0. generalize combine_init as st.
    intros st H0 frags. revert st H0.
    induction frags as [|f rest IH]; intros st H0; [exact H0|].
    cbn [fold_left]. apply IH, combine_step_numbered, H0. }
  unfold combine_finish. destruct (pending _); [|exact Hn].
  by apply numbered_snoc.
Qed.

Lemma combine_step_section_set st lyric :
  section_set st -> section_set (combine_step st lyric).
Proof.
  intros [Hc Hp]. unfold combine_step, section_set.
  cbn [combined current_section current_text]. split; [|by eauto].
  destruct (flushes st lyric) eqn:Hf; [|exact Hc]. cbn [combined].
  apply andb_true_iff in Hf as [_ Hpend]. destruct (Hp Hpend) as [sec Hsec].
  rewrite forallb_app, Hc. cbn. unfold has_section. cbn. by rewrite Hsec.
Qed.

Lemma flush_section_set pages :
  forallb has_section (_combine_pages_lyrics pages) = true.
Proof.
  unfold _combine_pages_lyrics. rewrite combine_pages_stream.
  assert (Hinv : section_set (fold_left combine_step (fragments pages) combine_init)).
  { assert (H0 : section_set combine_init) by (split; [reflexivity|discriminate]).
    revert H0. generalize combine_init as st. generalize (fragments pages) as frags.
    induction frags as [|f rest IH]; intros st H0; [exact H0|].
    cbn [fold_left]. by apply IH, combine_step_section_set. }
  destruct Hinv as [Hc Hp]. unfold combine_finish.
  destruct (pending _) eqn:Hpend; [|exact Hc].
  destruct (Hp eq_refl) as [sec Hsec].
  rewrite forallb_app, Hc. cbn. unfold has_section. cbn. by rewrite Hsec.
Qed.

End CombinerFacts.

(** C1, as stated, fails: the lines of the blocks are not always the
    sequence of the non-empty fragment texts.  A fragment whose text has
    two lines gives a block with two lines, but it is one text. *)
Lemma combine_lines_not_texts :
  block_lines (_combine_pages_lyrics two_line_page)
  <> nonempty_texts (fragments two_line_page).
Proof. vm_compute. discriminate. Qed.

(** C1 (amended): for every list of per-page fragment lists, the lines of
    the blocks, in order, are the lines of the non-empty fragment texts in
    page order then in-page order (each text split on line breaks), so
    they are exactly those texts when none of them contains a line break;
    and the number of blocks is the number of fragments met with a
    section different from the current one while the accumulator is
    non-empty, plus one when the accumulator is non-empty at the end. *)
Theorem combine_pages_lines (pages : list PageData) :
  block_lines (_combine_pages_lyrics pages)
  = concat (map (PyStr.split PyStr.nl) (nonempty_texts (fragments pages)))
  /\ (forallb (fun s => negb (PyStr.has_nl s)) (nonempty_texts (fragments pages)) = true ->
      block_lines (_combine_pages_lyrics pages) = nonempty_texts (fragments pages))
  /\ length (_combine_pages_lyrics pages)
     = (flush_count combine_init (fragments pages)
        + (if pending (current_text
                         (fold_left combine_step (fragments pages) combine_init))
           then 1 else 0))%nat.
Proof.
  assert (Hlines : block_lines (_combine_pages_lyrics pages)
    = concat (map (PyStr.split PyStr.nl) (nonempty_texts (fragments pages)))).
  { unfold _combine_pages_lyrics.
    rewrite combine_finish_lines, combine_pages_stream, combine_loop_lines.
    reflexivity. }
  split; [exact Hlines|]. split.
  - intros Hnl. rewrite Hlines. by apply PyStrFacts.concat_split_no_nl.
  - unfold _combine_pages_lyrics. rewrite combine_pages_stream.
    unfold combine_finish.
    destruct (pending _); rewrite ?length_app, combine_loop_count; simpl; lia.
Qed.

Lemma combine_pages_lines_witness :
  forallb (fun s => negb (PyStr.has_nl s)) (nonempty_texts (fragments two_pages)) = true
  /\ block_lines (_combine_pages_lyrics two_pages) = ["a"; "b"; "c"].
Proof.
  split; [reflexivity|].
  apply (proj1 (proj2 (combine_pages_lines two_pages))). reflexivity.
Defined.

(** ** Slide segmenter *)

Section SegmenterFacts.
Import PyStr.

Lemma rstrip_cons_nonspace c r :
  isspace c = false -> rstrip (String c r) = String c (rstrip r).
Proof. intros Hc. cbn [rstrip]. rewrite Hc. by destruct (rstrip r). Qed.

Lemma lstrip_head s :
  lstrip s = EmptyString \/ exists c r, lstrip s = String c r /\ isspace c = false.
Proof.
  induction s as [|c r IH]; [by left|].
  cbn [lstrip]. destruct (isspace c) eqn:Hc; [exact IH|].
  right. by exists c, r.
Qed.

Lemma rstrip_idem s : rstrip (rstrip s) = rstrip s.
Proof.
  induction s as [|c r IH]; [reflexivity|].
  cbn [rstrip]. destruct (rstrip r) as [|d r'] eqn:Hr.
  - destruct (isspace c) eqn:Hc; [reflexivity|].
    cbn [rstrip]. by rewrite Hc.
  - cbn [rstrip] in *. rewrite IH. reflexivity.
Qed.

Lemma strip_idem s : strip (strip s) = strip s.
Proof.
  unfold strip. destruct (lstrip_head s) as [He|(c & r & He & Hc)]; rewrite He.
  - reflexivity.
  - rewrite (rstrip_cons_nonspace _ _ Hc). cbn [lstrip]. rewrite Hc.
    rewrite <- (rstrip_cons_nonspace _ _ Hc). apply rstrip_idem.
Qed.

Lemma filter_strip_lines lines :
  List.filter nonempty (map strip lines) = map strip (List.filter nonblank lines).
Proof.
  induction lines as [|l t IH]; [reflexivity|].
  cbn [map List.filter]. unfold nonblank at 1.
  destruct (nonempty (strip l)); cbn [map]; by rewrite IH.
Qed.

Lemma filter_nonblank_stripped lines :
  List.filter nonblank (List.filter nonempty (map strip lines))
  = List.filter nonempty (map strip lines).
Proof.
  induction lines as [|l t IH]; [reflexivity|].
  cbn [map List.filter]. destruct (nonempty (strip l)) eqn:Hl; [|exact IH].
  cbn [List.filter]. unfold nonblank at 1. rewrite strip_idem, Hl.
  by rewrite IH.
Qed.

(** The segments of one block, as a map over its kept lines. *)
Lemma segment_block_lines lyric :
  segment_block lyric
  = map (fun line => [line_entry lyric line])
        (List.filter nonempty (map strip (split nl (get_text lyric)))).
Proof.
  unfold segment_block. induction (split nl (get_text lyric)) as [|l t IH];
    [reflexivity|].
  cbn [flat_map map List.filter]. destruct (nonempty (strip l)); cbn [map app];
    by rewrite IH.
Qed.

Lemma segment_block_texts lyric :
  segment_texts (segment_block lyric)
  = List.filter nonempty (map strip (split nl (get_text lyric))).
Proof.
  rewrite segment_block_lines. unfold segment_texts.
  induction (List.filter _ _) as [|l t IH]; [reflexivity|].
  cbn [map concat app]. cbn [map] in IH. by rewrite IH.
Qed.

Lemma segment_all_blocks lyrics_data n :
  segment_lyrics_for_slides lyrics_data n = flat_map segment_block lyrics_data.
Proof. by destruct lyrics_data. Qed.

Lemma segment_texts_blocks lyrics_data n :
  segment_texts (segment_lyrics_for_slides lyrics_data n)
  = List.filter nonempty (map strip (block_lines lyrics_data)).
Proof.
  rewrite segment_all_blocks. unfold segment_texts, block_lines.
  induction lyrics_data as [|b rest IH]; [reflexivity|].
  cbn [flat_map map concat]. rewrite concat_app, !map_app, List.filter_app.
  rewrite <- IH. f_equal. apply segment_block_texts.
Qed.

End SegmenterFacts.

(** C2, as stated, fails: a line with surrounding white space reaches its
    segment stripped, so the segments' texts are not the blocks' lines. *)
Lemma segment_texts_not_lines :
  List.filter nonblank (segment_texts (segment_lyrics_for_slides indented_block 1))
  <> List.filter nonblank (block_lines indented_block).
Proof. vm_compute. discriminate. Qed.

(** C2 (amended): for every list of reformatted blocks, the texts of all
    segment entries, in order (none of them is blank), are the lines of
    all blocks, in order, with the blank lines removed and each remaining
    line stripped of its leading and trailing white space; every
    non-blank line of every block becomes exactly one segment with one
    entry, which carries the stripped line and the block's section,
    line_number and page (1 when the block has none), in order. *)
Theorem segment_round_trip (lyrics_data : list Lyric) (max_lines_per_slide : Z) :
  let segments := segment_lyrics_for_slides lyrics_data max_lines_per_slide in
  List.filter nonblank (segment_texts segments)
  = map PyStr.strip (List.filter nonblank (block_lines lyrics_data))
  /\ List.filter nonblank (segment_texts segments) = segment_texts segments
  /\ segments
     = flat_map
         (fun lyric =>
            map (fun line => [ {| text := Some (PyStr.strip line);
                                  section := Some (get_section lyric);
                                  line_number := Some (get_line_number lyric);
                                  page := Some (get_page lyric) |} ])
                (List.filter nonblank (PyStr.split PyStr.nl (get_text lyric))))
         lyrics_data.
Proof.
  cbn zeta. rewrite segment_texts_blocks, filter_nonblank_stripped.
  split; [apply filter_strip_lines|]. split; [reflexivity|].
  rewrite segment_all_blocks.
  induction lyrics_data as [|b rest IH]; [reflexivity|].
  cbn [flat_map]. rewrite IH. f_equal.
  rewrite segment_block_lines, filter_strip_lines, map_map. reflexivity.
Qed.

(** ** Poetic reformatter *)

Section ReformatterFacts.
Context `{ModelService}.
Variable api_key : string.

Lemma reformat_app (l1 l2 : list Lyric) (w : World) :
  _reformat_lyrics_poetically api_key (l1 ++ l2) w
  = (fst (_reformat_lyrics_poetically api_key l1 w)
     ++ fst (_reformat_lyrics_poetically api_key l2
               (snd (_reformat_lyrics_poetically api_key l1 w))),
     snd (_reformat_lyrics_poetically api_key l2
            (snd (_reformat_lyrics_poetically api_key l1 w)))).
Proof.
  revert w. induction l1 as [|x t IH]; intros w.
  - cbn. by destruct (_reformat_lyrics_poetically api_key l2 w).
  - cbn [app _reformat_lyrics_poetically].
    destruct (reformat_one api_key x w) as [o w1]. rewrite IH.
    destruct (_reformat_lyrics_poetically api_key t w1) as [ot wt]. cbn [fst snd].
    destruct (_reformat_lyrics_poetically api_key l2 wt) as [o2 w2]. cbn [fst snd].
    by rewrite app_assoc.
Qed.

(** When Step B raises, the loop body appends the block it was given. *)
Lemma reformat_one_fallback (lyric : Lyric) (w : World) msg :
  PyStr.nonempty (get_text lyric) = true ->
  fst (step_b api_key lyric w) = Raise msg ->
  reformat_one api_key lyric w = ([lyric], snd (step_b api_key lyric w)).
Proof.
  intros Ht Hb. unfold reformat_one. rewrite Ht. cbn [negb].
  destruct (step_b api_key lyric w) as [[c|e] w2]; cbn in *; [discriminate|reflexivity].
Qed.

(** Every entry the loop body appends reads page 1 when its block does. *)
Lemma reformat_one_page (lyric : Lyric) (w : World) :
  get_page lyric = 1%Z ->
  Forall (fun b => get_page b = 1%Z) (fst (reformat_one api_key lyric w)).
Proof.
  intros Hp. unfold reformat_one.
  destruct (negb _); [constructor|].
  destruct (step_b api_key lyric w) as [[c|e] w2]; cbn [fst];
    repeat constructor; exact Hp.
Qed.

Lemma reformat_pages (lyrics_data : list Lyric) (w : World) :
  Forall (fun b => get_page b = 1%Z) lyrics_data ->
  Forall (fun b => get_page b = 1%Z)
         (fst (_reformat_lyrics_poetically api_key lyrics_data w)).
Proof.
  intros Hall. revert w. induction Hall as [|x t Hx _ IH]; intros w; [constructor|].
  cbn [_reformat_lyrics_poetically].
  pose proof (reformat_one_page x w Hx) as Ho.
  destruct (reformat_one api_key x w) as [o w1]. specialize (IH w1).
  destruct (_reformat_lyrics_poetically api_key t w1) as [ot wt].
  cbn [fst] in *. apply Forall_app; by split.
Qed.

End ReformatterFacts.

(** C3: when the text capability raises during the reformatting call
    (Step B) made for a block, the output block for that input is the
    input block itself, unchanged; the blocks before and after are
    processed as usual and the failure does not leave the reformatter,
    which returns its list. *)
Theorem reformat_failure_keeps_block `{ModelService} (api_key : string)
    (before after : list Lyric) (lyric : Lyric) (w : World) (msg : string) :
  let w1 := snd (_reformat_lyrics_poetically api_key before w) in
  let w2 := snd (step_b api_key lyric w1) in
  PyStr.nonempty (get_text lyric) = true ->
  fst (step_b api_key lyric w1) = Raise msg ->
  _reformat_lyrics_poetically api_key (before ++ lyric :: after) w
  = (fst (_reformat_lyrics_poetically api_key before w)
     ++ lyric :: fst (_reformat_lyrics_poetically api_key after w2),
     snd (_reformat_lyrics_poetically api_key after w2)).
Proof.
  intros w1 w2 Ht Hb. rewrite reformat_app. fold w1.
  cbn [_reformat_lyrics_poetically].
  rewrite (reformat_one_fallback api_key lyric w1 msg Ht Hb). fold w2.
  by destruct (_reformat_lyrics_poetically api_key after w2).
Qed.

Lemma reformat_failure_keeps_block_witness :
  PyStr.nonempty (get_text raw_block) = true
  /\ fst (@step_b Stubs.scripted "sk-test" raw_block failing_script)
     = Raise "request timed out"
  /\ @_reformat_lyrics_poetically Stubs.scripted "sk-test" [raw_block] failing_script
     = ([raw_block], []).
Proof.
  split; [reflexivity|]. split; [reflexivity|].
  apply (@reformat_failure_keeps_block Stubs.scripted "sk-test" [] [] raw_block
           failing_script "request timed out"); reflexivity.
Defined.

(** ** Page numbers after combination *)

Section PageFacts.

Lemma combine_step_no_page st lyric :
  Forall (fun b => page b = None) (combined st) ->
  Forall (fun b => page b = None) (combined (combine_step st lyric)).
Proof.
  intros Hc. unfold combine_step. destruct (flushes st lyric); cbn [combined];
    [|exact Hc].
  apply Forall_app. split; [exact Hc|]. by repeat constructor.
Qed.

Lemma combine_loop_no_page frags st :
  Forall (fun b => page b = None) (combined st) ->
  Forall (fun b => page b = None) (combined (fold_left combine_step frags st)).
Proof.
  revert st. induction frags as [|f rest IH]; intros st Hc; [exact Hc|].
  cbn [fold_left]. by apply IH, combine_step_no_page.
Qed.

(** No block of the combiner has a [page] key, whatever the pages of the
    fragments it read. *)
Lemma combine_pages_no_page pages :
  Forall (fun b => page b = None) (_combine_pages_lyrics pages).
Proof.
  unfold _combine_pages_lyrics. rewrite combine_pages_stream.
  assert (Hc : Forall (fun b => page b = None)
                 (combined (fold_left combine_step (fragments pages) combine_init))).
  { apply combine_loop_no_page. constructor. }
  unfold combine_finish. destruct (pending _); [|exact Hc].
  apply Forall_app. split; [exact Hc|]. by repeat constructor.
Qed.

Lemma organize_forall (P : Lyric -> Prop) l :
  Forall P l -> Forall P (_organize_lyrics l).
Proof.
  unfold _organize_lyrics. induction 1 as [|x t Hx _ IH]; cbn [List.filter];
    [constructor|].
  destruct (PyStr.nonempty _); [by constructor|exact IH].
Qed.

Lemma segment_block_page lyric :
  get_page lyric = 1%Z ->
  Forall (fun entry => page entry = Some 1%Z) (concat (segment_block lyric)).
Proof.
  intros Hp. rewrite segment_block_lines.
  induction (List.filter _ _) as [|l t IH]; [constructor|].
  cbn [map concat app]. constructor; [|exact IH].
  cbn [line_entry page]. by rewrite Hp.
Qed.

Lemma segment_pages lyrics_data n :
  Forall (fun b => get_page b = 1%Z) lyrics_data ->
  Forall (fun entry => page entry = Some 1%Z)
         (concat (segment_lyrics_for_slides lyrics_data n)).
Proof.
  rewrite segment_all_blocks. induction 1 as [|b rest Hb _ IH]; [constructor|].
  cbn [flat_map]. rewrite concat_app. apply Forall_app. split; [|exact IH].
  by apply segment_block_page.
Qed.

End PageFacts.

(** C10: every entry of every slide segment has page 1, whatever the PDF
    pages its text came from: the blocks of the combiner have no [page]
    key, the blocks of the reformatter read page 1 (written as 1 on the
    successful path, still absent on the fallback path), and the
    segmenter writes that 1 into each entry. *)
Theorem segment_pages_all_one `{ModelService} (api_key : string)
    (all_page_lyrics : list PageData) (w : World) (max_lines_per_slide : Z) :
  let combined_lyrics := _combine_pages_lyrics all_page_lyrics in
  let lyrics_data :=
    fst (_reformat_lyrics_poetically api_key (_organize_lyrics combined_lyrics) w) in
  Forall (fun block => page block = None) combined_lyrics
  /\ Forall (fun block => get_page block = 1%Z) lyrics_data
  /\ Forall (fun entry => page entry = Some 1%Z)
            (concat (segment_lyrics_for_slides lyrics_data max_lines_per_slide)).
Proof.
  intros combined_lyrics lyrics_data.
  assert (Hc : Forall (fun block => page block = None) combined_lyrics)
    by apply combine_pages_no_page.
  assert (Hr : Forall (fun block => get_page block = 1%Z) lyrics_data).
  { apply reformat_pages, organize_forall.
    eapply Forall_impl; [exact Hc|].
    intros b Hb. unfold get_page. by rewrite Hb. }
  split; [exact Hc|]. split; [exact Hr|]. by apply segment_pages.
Qed.

(** ** Text exporter *)

Section ExporterFacts.

Lemma append_assoc (a b c : string) : (a +:+ b) +:+ c = a +:+ (b +:+ c).
Proof.
  induction a as [|x a IH]; [reflexivity|].
  change (String x ((a +:+ b) +:+ c) = String x (a +:+ (b +:+ c))). by rewrite IH.
Qed.

Lemma append_empty_r (a : string) : a +:+ EmptyString = a.
Proof.
  induction a as [|x a IH]; [reflexivity|].
  change (String x (a +:+ EmptyString) = String x a). by rewrite IH.
Qed.

Lemma last_labelled_snoc done lyric :
  last_labelled (done ++ [lyric])
  = if PyStr.nonempty (get_section lyric) then Some (get_section lyric)
    else last_labelled done.
Proof. unfold last_labelled. by rewrite fold_left_app. Qed.

Lemma section_same sec cur :
  section_differs sec cur = false -> cur = Some sec.
Proof.
  destruct cur as [c|]; cbn; [|discriminate].
  intros Hc. apply negb_false_iff, String.eqb_eq in Hc. by subst.
Qed.

(** One iteration on an entry that has a text: the chunk is written and
    the loop remembers the last labelled section. *)
Lemma export_step_chunk st done lyric :
  export_section st = last_labelled done ->
  has_text lyric = true ->
  export_step st lyric
  = (Ok tt, {| written := written st +:+ export_chunk done lyric;
               export_section := last_labelled (done ++ [lyric]) |}).
Proof.
  intros Hcur Ht. unfold export_step, export_chunk, writes_header, has_text, get_text in *.
  rewrite last_labelled_snoc, <- Hcur.
  destruct (text lyric) as [t|]; [clear Ht|discriminate]. cbn [default].
  destruct (PyStr.nonempty (get_section lyric)) eqn:Hl; cbn [andb].
  - destruct (section_differs (get_section lyric) (export_section st)) eqn:Hd;
      cbn [written export_section].
    + by rewrite !append_assoc.
    + by rewrite (section_same _ _ Hd).
  - reflexivity.
Qed.

Lemma export_loop_chunks rest : forall st done,
  export_section st = last_labelled done ->
  forallb has_text rest = true ->
  export_loop st rest
  = (Ok tt, {| written := written st
                          +:+ fold_right String.append EmptyString (export_chunks done rest);
               export_section := last_labelled (done ++ rest) |}).
Proof.
  induction rest as [|lyric rest IH]; intros st done Hcur Hall.
  - cbn. rewrite append_empty_r, app_nil_r, <- Hcur. by destruct st.
  - cbn [forallb] in Hall. apply andb_true_iff in Hall as [Ht Hall].
    cbn [export_loop]. rewrite (export_step_chunk st done lyric Hcur Ht).
    rewrite (IH _ (done ++ [lyric])); [|reflexivity|exact Hall].
    cbn [written export_chunks fold_right].
    by rewrite append_assoc, <- app_assoc.
Qed.

End ExporterFacts.

(** C6, as stated, fails: the header test does not compare with the
    previous entry.  After an entry without section the verse goes on
    without a new header, although its section differs from the empty
    one just before. *)
Lemma export_header_not_per_change :
  snd (export_lyrics_text interrupted_verse) <> spec_export None interrupted_verse.
Proof. vm_compute. discriminate. Qed.

(** C6 (amended): the exporter writes, for each entry in order, its text
    followed by a line break, and before it a header (an empty line, then
    the upper-cased section in brackets) exactly when the entry's section
    is non-empty and differs from the section of the last entry before it
    that has a non-empty section, if there is one; so also before the
    first labelled entry, and never for an entry with an empty section.
    For the entries (verse 1, a), (verse 1, b), (chorus, c) the content
    is the expected one. *)
Theorem export_headers (lyrics_data : list Lyric) :
  (forallb has_text lyrics_data = true ->
   export_lyrics_text lyrics_data
   = (Ok tt, fold_right String.append EmptyString (export_chunks [] lyrics_data)))
  /\ (forall done lyric,
        get_section lyric = EmptyString ->
        export_chunk done lyric = get_text lyric +:+ String PyStr.nl EmptyString)
  /\ export_lyrics_text verse_and_chorus
     = (Ok tt, "
[VERSE 1]
a
b

[CHORUS]
c
").
Proof.
  split; [|split].
  - intros Hall. unfold export_lyrics_text.
    by rewrite (export_loop_chunks lyrics_data export_init [] eq_refl Hall).
  - intros done lyric Hs. unfold export_chunk. by rewrite Hs.
  - reflexivity.
Qed.

Lemma export_headers_witness :
  forallb has_text interrupted_verse = true
  /\ export_lyrics_text interrupted_verse
     = (Ok tt, "
[VERSE 1]
a
b
c
").
Proof.
  split; [reflexivity|].
  apply (proj1 (export_headers interrupted_verse)). reflexivity.
Defined.

(** ** Image preparer *)

Section ImagePreparerFacts.
Context `{ImageCodec}.

Lemma compress_loop_body img max_size quality :
  compress_loop img max_size quality
  = if Z_le_dec 20 quality then
      if (len (save_jpeg img quality) <=? max_size)%Z
      then Some (save_jpeg img quality)
      else compress_loop img max_size (quality - 10)
    else None.
Proof.
  simp compress_loop. destruct (Z_le_dec 20 quality); simp compress_loop; reflexivity.
Qed.

(** From 85 the loop tries 85, 75, ..., 25 and returns at the first level
    whose buffer fits. *)
Lemma compress_loop_find img max_size :
  compress_loop img max_size 85
  = option_map (save_jpeg img)
      (List.find (fun q => len (save_jpeg img q) <=? max_size)%Z tried_qualities).
Proof.
  unfold tried_qualities. cbn [List.find].
  do 7 (rewrite compress_loop_body;
        destruct (Z_le_dec 20 _) as [_|Hn]; [|exfalso; lia];
        destruct (len (save_jpeg img _) <=? max_size)%Z; [reflexivity|];
        cbn [Z.sub Z.add Z.opp Z.pos_sub Pos.pred_double]).
  rewrite compress_loop_body.
  destruct (Z_le_dec 20 _) as [Hn|_]; [exfalso; lia|]. reflexivity.
Qed.

End ImagePreparerFacts.

(** C7, as stated, fails: a quality level of at least 20 percent can fit
    the ceiling (here level 20, at full and at half resolution) while the
    buffer returned is larger than the ceiling.  The loop tries 85 down
    to 25 only, and the last resort is encoded at quality 70. *)
Lemma compress_exceeds_ceiling :
  let img := @image_open_rgb Stubs.toy_codec [] in
  ((20 <= 20)%Z /\ (len (@save_jpeg Stubs.toy_codec img 20) <= 22)%Z)
  /\ (len (@save_jpeg Stubs.toy_codec (@resize_half Stubs.toy_codec img) 20) <= 22)%Z
  /\ ~ (len (@_compress_image Stubs.toy_codec [] 22) <= 22)%Z.
Proof. vm_compute. repeat split; try discriminate. intros Hle. by apply Hle. Qed.

(** C7 (amended): for every input image and ceiling, the lossy fallback
    returns a buffer at or under the ceiling when one of the quality
    levels it tries (85, 75, 65, 55, 45, 35, 25) gives such a buffer at
    full resolution, or when the half-resolution image encoded at quality
    70 does; it always returns a buffer, one of these eight candidates,
    and it is the half-resolution one when no tried level fits, also when
    that one is over the ceiling. *)
Theorem compress_image_fits `{ImageCodec} (img_data : bytes) (max_size : Z) :
  let img := image_open_rgb img_data in
  let last_resort := save_jpeg (resize_half img) 70 in
  ((exists q, In q tried_qualities /\ (len (save_jpeg img q) <= max_size)%Z)
   \/ (len last_resort <= max_size)%Z ->
   (len (_compress_image img_data max_size) <= max_size)%Z)
  /\ In (_compress_image img_data max_size)
        (map (save_jpeg img) tried_qualities ++ [last_resort])
  /\ ((forall q, In q tried_qualities -> (max_size < len (save_jpeg img q))%Z) ->
      _compress_image img_data max_size = last_resort).
Proof.
  intros img last_resort. unfold _compress_image. fold img.
  rewrite compress_loop_find.
  destruct (List.find _ tried_qualities) as [q|] eqn:Hfind; cbn [option_map].
  - apply List.find_some in Hfind as [Hin Hq]. apply Z.leb_le in Hq.
    split; [intros _; exact Hq|]. split.
    + apply in_or_app. left. by apply in_map.
    + intros Hall. specialize (Hall q Hin). lia.
  - fold last_resort. split; [|split].
    + intros [(q & Hin & Hq)|Hlast]; [|exact Hlast].
      apply (List.find_none _ _ Hfind) in Hin. apply Z.leb_gt in Hin. lia.
    + apply in_or_app. right. by left.
    + reflexivity.
Qed.

Lemma compress_image_fits_witness :
  (exists q, In q tried_qualities
             /\ (len (@save_jpeg Stubs.toy_codec (@image_open_rgb Stubs.toy_codec []) q) <= 30)%Z)
  /\ (len (@_compress_image Stubs.toy_codec [] 30) <= 30)%Z.
Proof.
  assert (Hq : exists q, In q tried_qualities
    /\ (len (@save_jpeg Stubs.toy_codec (@image_open_rgb Stubs.toy_codec []) q) <= 30)%Z).
  { exists 25%Z. split; [vm_compute; tauto|vm_compute; discriminate]. }
  split; [exact Hq|].
  apply (proj1 (@compress_image_fits Stubs.toy_codec [] 30)). left. exact Hq.
Defined.

(** ** Page lyric extractor *)

Section ExtractorFacts.
Import PyStr.

Lemma startswith_char a c r :
  startswith (String a EmptyString) (String c r) = Ascii.eqb a c.
Proof. simpl. apply andb_true_r. Qed.

Lemma contains_char_cons a c r :
  contains (String a EmptyString) (String c r)
  = Ascii.eqb a c || contains (String a EmptyString) r.
Proof. cbn [contains]. by rewrite startswith_char. Qed.

Lemma append_cons c a b : String c a +:+ b = String c (a +:+ b).
Proof. reflexivity. Qed.

(** Text before the first opening brace is skipped. *)
Lemma re_search_skip before s :
  contains "{" before = false ->
  re_search_braces (before +:+ s) = re_search_braces s.
Proof.
  induction before as [|c r IH]; [reflexivity|].
  rewrite contains_char_cons. intros Hn. apply orb_false_iff in Hn as [Hc Hr].
  rewrite append_cons. cbn [re_search_braces].
  rewrite Ascii.eqb_sym, Hc. by apply IH.
Qed.

Lemma upto_last_close_none after :
  contains "}" after = false -> upto_last_close after = None.
Proof.
  induction after as [|c r IH]; [reflexivity|].
  rewrite contains_char_cons. intros Hn. apply orb_false_iff in Hn as [Hc Hr].
  cbn [upto_last_close]. rewrite (IH Hr), Ascii.eqb_sym, Hc. reflexivity.
Qed.

Lemma upto_last_close_prefix mid s p :
  upto_last_close s = Some p -> upto_last_close (mid +:+ s) = Some (mid +:+ p).
Proof.
  intros Hs. induction mid as [|c r IH]; [exact Hs|].
  rewrite !append_cons. cbn [upto_last_close]. by rewrite IH.
Qed.

(** The match runs from the first opening brace to the last closing one:
    an object is found as it is when no opening brace comes before it and
    no closing brace after it. *)
Lemma re_search_object before mid after :
  contains "{" before = false ->
  contains "}" after = false ->
  re_search_braces (before +:+ ("{" +:+ mid +:+ "}") +:+ after)
  = Some ("{" +:+ mid +:+ "}").
Proof.
  intros Hb Ha. rewrite (re_search_skip _ _ Hb).
  change (("{" +:+ mid +:+ "}") +:+ after) with (String "{" ((mid +:+ "}") +:+ after)).
  cbn [re_search_braces]. rewrite Ascii.eqb_refl.
  rewrite append_assoc, (upto_last_close_prefix mid ("}" +:+ after) "}"); [reflexivity|].
  change ("}" +:+ after) with (String "}" after). cbn [upto_last_close].
  by rewrite (upto_last_close_none _ Ha).
Qed.

Lemma set_pages_dicts page_num ds :
  set_pages page_num (map JObj ds) = Ok (map (insert "page" (JInt page_num)) ds).
Proof.
  induction ds as [|d t IH]; [reflexivity|].
  cbn [map set_pages]. by rewrite IH.
Qed.

Lemma set_pages_tagged page_num l ms :
  set_pages page_num l = Ok ms ->
  Forall (fun d : gmap string json => d !! "page" = Some (JInt page_num)) ms.
Proof.
  revert ms. induction l as [|v t IH]; intros ms; cbn [set_pages].
  - intros [= <-]. constructor.
  - destruct v; try discriminate.
    destruct (set_pages page_num t) as [ms'|e]; [|discriminate].
    intros [= <-]. constructor; [apply lookup_insert_eq|by apply IH].
Qed.

Lemma page_lyrics_tagged page_num v ms :
  page_lyrics page_num v = Ok ms ->
  Forall (fun d : gmap string json => d !! "page" = Some (JInt page_num)) ms.
Proof.
  unfold page_lyrics. destruct v as [| | | | |l|m]; try discriminate.
  destruct (default (JArr []) (m !! "lyrics")) as [| | | |s|l|d]; try discriminate.
  - destruct s; [|discriminate]. intros [= <-]. constructor.
  - apply set_pages_tagged.
  - destruct (decide (d = ∅)); [|discriminate]. intros [= <-]. constructor.
Qed.

End ExtractorFacts.

(** Whatever the reply, every fragment returned carries the page number
    the extractor was called with. *)
Lemma extract_fragments_tagged `{ModelService} `{JsonReader}
    (api_key img_base64 : string) (page_num : Z) (w : World) :
  Forall (fun d : gmap string json => d !! "page" = Some (JInt page_num))
         (fst (_extract_lyrics_with_gpt4 api_key img_base64 page_num w)).
Proof.
  unfold _extract_lyrics_with_gpt4.
  destruct (chat_create api_key (VisionRequest img_base64) w) as [[t|e] w'];
    [|constructor].
  destruct (re_search_braces t) as [m|]; [|constructor].
  destruct (json_loads m) as [v|e]; [|constructor].
  destruct (page_lyrics page_num v) as [l|e] eqn:Hl; [|constructor].
  cbn [fst]. by eapply page_lyrics_tagged.
Qed.

(** C5, as stated, fails: the text parsed is not the first brace-delimited
    object of the reply.  When the reply goes on with a remark that has a
    closing brace, the match runs on to that brace, the JSON reader
    rejects it and the page gives no fragment, while the first object
    alone holds one. *)
Lemma extract_not_first_object :
  fst (@_extract_lyrics_with_gpt4 Stubs.scripted MiniJson.reader
         "sk-test" "aW1n" 3 [Ok Stubs.reply_with_remark])
  <> fst (@spec_extract_lyrics Stubs.scripted MiniJson.reader
            "sk-test" "aW1n" 3 [Ok Stubs.reply_with_remark]).
Proof. vm_compute. discriminate. Qed.

(** C5 (amended): for every reply of the vision capability, the extractor
    parses the text that runs from the first opening brace of the reply
    to its last closing brace, so a JSON object is found when the prose
    before it has no opening brace and the prose after it no closing
    brace; when the network call raises, when the reply has no such
    text, or when the JSON reader rejects it, the page gives the empty
    list and nothing is raised; and every fragment returned carries the
    page number it was called with: for an object whose [lyrics] is a
    list of dicts, the result is that list with the page set in each. *)
Theorem extract_page_fragments `{ModelService} `{JsonReader}
    (api_key img_base64 : string) (page_num : Z) (w : World) :
  let reply := fst (chat_create api_key (VisionRequest img_base64) w) in
  let result := _extract_lyrics_with_gpt4 api_key img_base64 page_num w in
  Forall (fun d : gmap string json => d !! "page" = Some (JInt page_num)) (fst result)
  /\ ((exists e, reply = Raise e)
      \/ (exists t, reply = Ok t /\ re_search_braces t = None)
      \/ (exists t m e, reply = Ok t /\ re_search_braces t = Some m
                        /\ json_loads m = Raise e) ->
      fst result = [])
  /\ (forall before mid after m ds,
        reply = Ok (before +:+ ("{" +:+ mid +:+ "}") +:+ after) ->
        PyStr.contains "{" before = false ->
        PyStr.contains "}" after = false ->
        json_loads ("{" +:+ mid +:+ "}") = Ok (JObj m) ->
        m !! "lyrics" = Some (JArr (map JObj ds)) ->
        fst result = map (insert "page" (JInt page_num)) ds).
Proof.
  intros reply result. subst reply result.
  split; [apply extract_fragments_tagged|].
  unfold _extract_lyrics_with_gpt4.
  destruct (chat_create api_key (VisionRequest img_base64) w) as [[t|e] w'];
    cbn [fst].
  - split.
    + intros [(e & He)|[(t' & Ht & Hnone)|(t' & m & e & Ht & Hm & He)]].
      * discriminate.
      * injection Ht as <-. by rewrite Hnone.
      * injection Ht as <-. by rewrite Hm, He.
    + intros before mid after m ds [= ->] Hb Ha Hj Hl.
      rewrite (re_search_object _ _ _ Hb Ha), Hj. cbn [page_lyrics].
      rewrite Hl. cbn [default from_option id]. by rewrite set_pages_dicts.
  - split; [reflexivity|].
    intros before mid after m ds [=].
Qed.

Lemma extract_page_fragments_witness :
  fst (@_extract_lyrics_with_gpt4 Stubs.scripted MiniJson.reader
         "sk-test" "aW1n" 3 [Raise "connection reset"]) = []
  /\ fst (@_extract_lyrics_with_gpt4 Stubs.scripted MiniJson.reader
            "sk-test" "aW1n" 3 [Ok Stubs.reply_with_prose])
     = [<["page" := JInt 3]> la_fragment].
Proof.
  split.
  - apply (proj1 (proj2 (@extract_page_fragments Stubs.scripted MiniJson.reader
                           "sk-test" "aW1n" 3 [Raise "connection reset"]))).
    left. by exists "connection reset".
  - apply (proj2 (proj2 (@extract_page_fragments Stubs.scripted MiniJson.reader
                           "sk-test" "aW1n" 3 [Ok Stubs.reply_with_prose]))
             "Here it is: "
             (Stubs.quoted "lyrics" +:+ ": [{" +:+ Stubs.quoted "text" +:+ ": "
              +:+ Stubs.quoted "la" +:+ "}]")
             " Done." la_reply_object [la_fragment]).
    + reflexivity.
    + reflexivity.
    + reflexivity.
    + vm_compute. reflexivity.
    + reflexivity.
Defined.

(** ** Request front-end *)

Section WebFacts.

Lemma remove_if_exists_lookup p fs :
  remove_if_exists p fs !! p = None.
Proof.
  unfold remove_if_exists. destruct (fs !! p) eqn:Hp; [apply lookup_delete_eq|exact Hp].
Qed.

Lemma remove_if_exists_other p q fs :
  q <> p -> remove_if_exists p fs !! q = fs !! q.
Proof.
  intros Hne. unfold remove_if_exists. destruct (fs !! p); [|reflexivity].
  by apply lookup_delete_ne.
Qed.

Lemma remove_if_exists_absent p fs :
  fs !! p = None -> remove_if_exists p fs = fs.
Proof. intros Hp. unfold remove_if_exists. by rewrite Hp. Qed.

Lemma endswith_nonempty p s :
  PyStr.nonempty p = true -> PyStr.endswith p s = true -> PyStr.nonempty s = true.
Proof. destruct s; [|reflexivity]. destruct p; [discriminate|]. cbn. discriminate. Qed.

End WebFacts.

(** C9: a download request for a file that exists answers 200 with the
    bytes of the file and removes it and its paired text export, and
    leaves the other files as they are, so that the same request made
    again on the resulting files answers 404 and changes nothing; a
    request for a file that does not exist answers 404. *)
Theorem download_once (filename : string) (fs : gmap string bytes) :
  let file_path := os_path_join OUTPUT_FOLDER filename in
  let lyrics_path := PyStr.replace ".pptx" "_lyrics.txt" file_path in
  let response := fst (download_file filename fs) in
  let fs' := snd (download_file filename fs) in
  (forall file_data, fs !! file_path = Some file_data ->
     status response = 200%Z
     /\ body response = BytesBody file_data
     /\ fs' !! file_path = None
     /\ fs' !! lyrics_path = None
     /\ (forall p, p <> file_path -> p <> lyrics_path -> fs' !! p = fs !! p)
     /\ status (fst (download_file filename fs')) = 404%Z
     /\ snd (download_file filename fs') = fs')
  /\ (fs !! file_path = None -> status response = 404%Z /\ fs' = fs).
Proof.
  intros file_path lyrics_path response fs'.
  subst response fs'. unfold download_file. fold file_path. fold lyrics_path.
  split.
  - intros file_data Hf. rewrite Hf. cbn [fst snd status body].
    assert (Hgone : remove_if_exists lyrics_path (delete file_path fs) !! file_path = None).
    { destruct (decide (file_path = lyrics_path)) as [<-|Hne].
      - apply remove_if_exists_lookup.
      - rewrite remove_if_exists_other by done. apply lookup_delete_eq. }
    repeat split.
    + exact Hgone.
    + apply remove_if_exists_lookup.
    + intros p Hp Hl. rewrite remove_if_exists_other by done.
      by apply lookup_delete_ne.
    + by rewrite Hgone.
    + by rewrite Hgone.
  - intros Hf. by rewrite Hf.
Qed.

Lemma download_once_witness :
  one_run_files !! os_path_join OUTPUT_FOLDER deck_name = Some [Byte.x50; Byte.x4b]
  /\ status (fst (download_file deck_name one_run_files)) = 200%Z
  /\ snd (download_file deck_name one_run_files) = ∅
  /\ status (fst (download_file deck_name (snd (download_file deck_name one_run_files))))
     = 404%Z.
Proof.
  assert (Hf : one_run_files !! os_path_join OUTPUT_FOLDER deck_name
               = Some [Byte.x50; Byte.x4b]) by reflexivity.
  destruct (proj1 (download_once deck_name one_run_files) _ Hf)
    as (Hs & _ & _ & _ & _ & Hagain & _).
  split; [exact Hf|]. split; [exact Hs|]. split; [by vm_compute|exact Hagain].
Defined.

(** C8: a request to process with a PDF upload and no credential, the
    form having no [api_key] or an empty one, is answered with exactly
    the JSON object [success: false], [error: Please provide an OpenAI API
    key]; the handler raises nothing and the files (and the remote
    service) are left as they were. *)
Theorem process_without_api_key
    `{ModelService} `{ImageCodec} `{JsonReader} `{Documents}
    (secure_filename : string -> string)
    (request : ProcessRequest) (timestamp : string) (s : Sys) (file : FileStorage) :
  request_files request !! "file" = Some file ->
  PyStr.endswith ".pdf" (filename file) = true ->
  request_form request !! "api_key" = None
  \/ request_form request !! "api_key" = Some EmptyString ->
  process secure_filename request timestamp s
  = ({| status := 200;
        body := JsonBody (<["success" := JBool false]>
                         (<["error" := JStr "Please provide an OpenAI API key"]> ∅));
        headers := [] |}, s).
Proof.
  intros Hfile Hpdf Hkey. unfold process. rewrite Hfile, Hpdf.
  rewrite (endswith_nonempty ".pdf" _ eq_refl Hpdf). cbn [negb orb].
  by destruct Hkey as [-> | ->].
Qed.

Lemma process_without_api_key_witness :
  @process Stubs.scripted Stubs.toy_codec MiniJson.reader Stubs.toy_documents
    (fun name => name) upload_without_key "20240101_120000" offline
  = ({| status := 200;
        body := JsonBody (<["success" := JBool false]>
                         (<["error" := JStr "Please provide an OpenAI API key"]> ∅));
        headers := [] |}, offline).
Proof.
  apply (@process_without_api_key Stubs.scripted Stubs.toy_codec MiniJson.reader
           Stubs.toy_documents (fun name => name) upload_without_key
           "20240101_120000" offline
           {| filename := "song.pdf"; stream := [Byte.x25; Byte.x50] |}).
  - reflexivity.
  - reflexivity.
  - left. reflexivity.
Defined.

(** ** The pipeline and its callers *)

Section PipelineFacts.
Context `{ModelService} `{ImageCodec} `{JsonReader} `{Documents}.

(** Extraction reads the files and does not change them. *)
Lemma extract_keeps_files api_key pdf_path (s s1 : Sys) r :
  extract_lyrics_from_pdf api_key pdf_path s = (r, s1) -> files s1 = files s.
Proof.
  unfold extract_lyrics_from_pdf. destruct (files s !! pdf_path) as [data|].
  - destruct (fitz_open data) as [pages|e].
    + destruct (extract_pages api_key 0 pages (world s)) as [apl w1].
      destruct (_reformat_lyrics_poetically _ _ w1) as [ld w2].
      by intros [= _ <-].
    + by intros [= _ <-].
  - by intros [= _ <-].
Qed.

Lemma process_no_lyrics pdf_path output_pptx api_key title n export_text (s s1 : Sys) :
  extract_lyrics_from_pdf api_key pdf_path s = (Ok [], s1) ->
  process_sheet_music_with_gpt4 pdf_path output_pptx api_key title n export_text s
  = (Ok None, s1).
Proof. intros He. unfold process_sheet_music_with_gpt4. by rewrite He. Qed.

(** The script exits with code 1 exactly when the pipeline raises. *)
Lemma cli_exit_code prog input_pdf output_pptx title api_key (s : Sys) :
  exit_code (fst (cli_main [prog; input_pdf; output_pptx; title; api_key] s)) = 1%Z
  <-> exists e,
      fst (process_sheet_music_with_gpt4 input_pdf output_pptx api_key title 1 true s)
      = Raise e.
Proof.
  cbn [cli_main].
  destruct (process_sheet_music_with_gpt4 _ _ _ _ _ _ s) as [[r|e] s']; cbn.
  - split; [discriminate|]. by intros [e [=]].
  - split; [by exists e|reflexivity].
Qed.

Lemma lyric_of_dict_page (d : gmap string json) n :
  d !! "page" = Some (JInt n) -> page (lyric_of_dict d) = Some n.
Proof. intros Hd. unfold lyric_of_dict. cbn [page]. by rewrite Hd. Qed.

(** The fragments read from the page at index [page_num] carry the
    1-based number [page_num + 1]. *)
Lemma extract_page_numbers api_key page_num pg (w : World) :
  Forall (fun pd => pd_page pd = (page_num + 1)%Z
                    /\ Forall (fun l => page l = Some (page_num + 1)%Z) (lyrics pd))
         (fst (extract_page api_key page_num pg w)).
Proof.
  unfold extract_page.
  pose proof (extract_fragments_tagged api_key
                (b64encode (page_image pg)) (page_num + 1) w) as Htag.
  destruct (_extract_lyrics_with_gpt4 _ _ _ w) as [[|d ds] w']; cbn [fst] in *;
    [constructor|].
  constructor; [|constructor]. split; [reflexivity|]. cbn [lyrics].
  apply Forall_map. eapply Forall_impl; [exact Htag|].
  intros x Hx. by apply lyric_of_dict_page.
Qed.

End PipelineFacts.

(** C4, as stated, fails: when extraction yields no lyric entry (here the
    service is unreachable while a PDF of two pages is read), the script
    prints its success message and exits with code 0, and the processing
    endpoint answers [success: true]. *)
Lemma no_lyrics_reported_as_success :
  fst (@extract_lyrics_from_pdf Stubs.scripted Stubs.toy_codec MiniJson.reader
         Stubs.toy_documents "sk-test" "song.pdf" offline_with_pdf) = Ok []
  /\ fst (@cli_main Stubs.scripted Stubs.toy_codec MiniJson.reader Stubs.toy_documents
            ["run_gpt4_cli.py"; "song.pdf"; "out.pptx"; "Song"; "sk-test"]
            offline_with_pdf)
     = {| exit_code := 0; message := Success |}
  /\ fst (@extract_lyrics_from_pdf Stubs.scripted Stubs.toy_codec MiniJson.reader
            Stubs.toy_documents "sk-test" "/tmp/uploads/20240101_120000_song.pdf"
            (@mkSys Stubs.scripted
               (<["/tmp/uploads/20240101_120000_song.pdf" := [Byte.x25; Byte.x50]]> ∅)
               [])) = Ok []
  /\ body (fst (@process Stubs.scripted Stubs.toy_codec MiniJson.reader
                  Stubs.toy_documents (fun name => name) upload_with_key
                  "20240101_120000" offline))
     = JsonBody (<["success" := JBool true]>
                (<["lyrics_text" := JStr EmptyString]>
                (<["lyrics_html" := JStr EmptyString]>
                (<["pptx_path" := JStr "20240101_120000_output.pptx"]> ∅)))).
Proof. repeat split; by vm_compute. Qed.

(** C4 (amended): if extraction yields no lyric entry at all, the run
    stops before the text export and the deck creation by returning
    normally, without a processor: no file is written and no exception is
    raised, so nothing reaches the boundary as a failure and the script
    ends with its success message and exit code 0, and the processing
    endpoint answers [success: true].  Exit code 1 (with five arguments)
    is produced exactly when the pipeline raises an exception. *)
Theorem no_lyrics_returns_normally
    `{ModelService} `{ImageCodec} `{JsonReader} `{Documents}
    (prog pdf_path output_pptx api_key title : string) (s s1 : Sys) :
  extract_lyrics_from_pdf api_key pdf_path s = (Ok [], s1) ->
  (forall max_lines_per_slide export_text,
     process_sheet_music_with_gpt4 pdf_path output_pptx api_key title
       max_lines_per_slide export_text s = (Ok None, s1))
  /\ files s1 = files s
  /\ cli_main [prog; pdf_path; output_pptx; title; api_key] s
     = ({| exit_code := 0; message := Success |}, s1)
  /\ (forall s', exit_code (fst (cli_main [prog; pdf_path; output_pptx; title; api_key] s'))
                 = 1%Z
                 <-> exists e,
                     fst (process_sheet_music_with_gpt4 pdf_path output_pptx api_key
                            title 1 true s') = Raise e)
  /\ (forall secure_filename request timestamp s0 file,
        request_files request !! "file" = Some file ->
        PyStr.endswith ".pdf" (filename file) = true ->
        request_form request !! "api_key" = Some api_key ->
        PyStr.nonempty api_key = true ->
        pdf_path = os_path_join UPLOAD_FOLDER
                     (timestamp +:+ "_" +:+ secure_filename (filename file)) ->
        s = {| files := <[pdf_path := stream file]> (files s0); world := world s0 |} ->
        exists fields,
          body (fst (process secure_filename request timestamp s0)) = JsonBody fields
          /\ fields !! "success" = Some (JBool true)
          /\ files (snd (process secure_filename request timestamp s0))
             = remove_if_exists pdf_path (files s)).
Proof.
  intros He. split; [|split; [|split; [|split]]].
  - intros n e. by apply process_no_lyrics.
  - by eapply extract_keeps_files.
  - cbn [cli_main]. by rewrite (process_no_lyrics _ _ _ _ _ _ _ _ He).
  - intros s'. apply cli_exit_code.
  - intros secure_filename request timestamp s0 file Hfile Hpdf Hkey Hne Hpath Hs.
    unfold process. rewrite Hfile, Hpdf, Hkey.
    rewrite (endswith_nonempty ".pdf" _ eq_refl Hpdf). cbn [negb orb default from_option id].
    rewrite Hne. cbn [negb]. rewrite <- Hpath, <- Hs.
    rewrite (process_no_lyrics _ _ _ _ _ _ _ _ He).
    eexists. split; [reflexivity|]. split; [reflexivity|].
    cbn [snd files]. by rewrite (extract_keeps_files _ _ _ _ _ He).
Qed.

Lemma no_lyrics_returns_normally_witness :
  @extract_lyrics_from_pdf Stubs.scripted Stubs.toy_codec MiniJson.reader
    Stubs.toy_documents "sk-test" "song.pdf" offline_with_pdf
  = (Ok [], offline_with_pdf)
  /\ @process_sheet_music_with_gpt4 Stubs.scripted Stubs.toy_codec MiniJson.reader
       Stubs.toy_documents "song.pdf" "out.pptx" "sk-test" "Song" 1 true offline_with_pdf
     = (Ok None, offline_with_pdf).
Proof.
  assert (He : @extract_lyrics_from_pdf Stubs.scripted Stubs.toy_codec MiniJson.reader
                 Stubs.toy_documents "sk-test" "song.pdf" offline_with_pdf
               = (Ok [], offline_with_pdf)) by reflexivity.
  split; [exact He|].
  apply (proj1 (@no_lyrics_returns_normally Stubs.scripted Stubs.toy_codec
                  MiniJson.reader Stubs.toy_documents
                  "run_gpt4_cli.py" "song.pdf" "out.pptx" "sk-test" "Song"
                  offline_with_pdf offline_with_pdf He)).
Defined.

(* ===================================================================== *)
(** * Further properties of the code *)
(* ===================================================================== *)

(** ** Cross-page combiner *)

Section CombinerMore.
Import PyStr.

Lemma fragments_single n frags :
  fragments [ {| pd_page := n; lyrics := frags |} ] = frags.
Proof. unfold fragments. cbn. apply app_nil_r. Qed.

Lemma join_nonempty sep x t :
  nonempty x = true -> nonempty (join sep (x :: t)) = true.
Proof. destruct x; [discriminate|]. intros _. by destruct t. Qed.

Lemma flush_block_nonempty st :
  forallb nonempty (current_text st) = true ->
  pending (current_text st) = true ->
  nonempty (get_text (flush_block st)) = true.
Proof.
  destruct st as [cmb cur [|x t]]; cbn [current_text]; [discriminate|].
  intros Hall _. cbn [forallb] in Hall. apply andb_true_iff in Hall as [Hx _].
  unfold flush_block, get_text. cbn [text current_text default from_option id].
  by apply join_nonempty.
Qed.

Lemma combine_step_texts st lyric :
  texts_nonempty st -> texts_nonempty (combine_step st lyric).
Proof.
  intros [Ha Hc]. unfold combine_step, texts_nonempty.
  destruct (flushes st lyric) eqn:Hf; cbn [combined current_text].
  - apply andb_true_iff in Hf as [_ Hp]. split.
    + destruct (nonempty (get_text lyric)) eqn:Ht; [|reflexivity].
      cbn. by rewrite Ht.
    + rewrite forallb_app, Hc. cbn [forallb].
      by rewrite (flush_block_nonempty st Ha Hp).
  - split; [|exact Hc].
    destruct (nonempty (get_text lyric)) eqn:Ht; [|exact Ha].
    rewrite forallb_app, Ha. cbn. by rewrite Ht.
Qed.

Lemma combine_loop_texts frags st :
  texts_nonempty st -> texts_nonempty (fold_left combine_step frags st).
Proof.
  revert st. induction frags as [|f rest IH]; intros st Hst; [exact Hst|].
  cbn [fold_left]. by apply IH, combine_step_texts.
Qed.

Lemma combine_pages_texts pages :
  forallb (fun b => nonempty (get_text b)) (_combine_pages_lyrics pages) = true.
Proof.
  unfold _combine_pages_lyrics. rewrite combine_pages_stream.
  destruct (combine_loop_texts (fragments pages) combine_init) as [Ha Hc];
    [by split|].
  unfold combine_finish. destruct (pending _) eqn:Hp; [|exact Hc].
  rewrite forallb_app, Hc. cbn [forallb].
  by rewrite (flush_block_nonempty _ Ha Hp).
Qed.

(** With a non-empty accumulator under section [c], the sections of the
    blocks to come are the runs of [c] followed by the fragments'
    sections, when every fragment has a text. *)
Lemma combine_loop_sections frags : forall st c,
  current_section st = Some c ->
  pending (current_text st) = true ->
  forallb (fun l => nonempty (get_text l)) frags = true ->
  map get_section (combine_finish (fold_left combine_step frags st))
  = map get_section (combined st) ++ collapse (c :: map get_section frags).
Proof.
  induction frags as [|f rest IH]; intros st c Hc Hp Hall.
  - cbn [fold_left map collapse]. unfold combine_finish. rewrite Hp, map_app.
    cbn [map]. unfold get_section at 2. cbn [flush_block section].
    by rewrite Hc.
  - cbn [forallb] in Hall. apply andb_true_iff in Hall as [Hf Hall].
    cbn [fold_left map].
    assert (Hp' : pending (current_text (combine_step st f)) = true).
    { unfold combine_step. cbn [current_text]. rewrite Hf.
      by destruct (current_text (if flushes st f then _ else st)). }
    rewrite (IH (combine_step st f) (get_section f) eq_refl Hp' Hall).
    unfold combine_step at 1, flushes. rewrite Hc, Hp. cbn [section_differs andb].
    rewrite andb_true_r.
    change (collapse (c :: get_section f :: map get_section rest))
      with (if String.eqb c (get_section f)
            then collapse (get_section f :: map get_section rest)
            else c :: collapse (get_section f :: map get_section rest)).
    rewrite (String.eqb_sym c). destruct (String.eqb (get_section f) c);
      cbn [negb combined].
    + reflexivity.
    + rewrite map_app, <- app_assoc. cbn [map app].
      unfold get_section at 2. cbn [flush_block section]. by rewrite Hc.
Qed.

End CombinerMore.

(** X1: the blocks depend on the fragment stream only, not on how it is
    cut into pages: the pages give the same blocks as one page holding
    all their fragments, so a section that runs over a page break is one
    block. *)
Theorem combine_ignores_page_breaks (pages : list PageData) (n : Z) :
  _combine_pages_lyrics pages
  = _combine_pages_lyrics [ {| pd_page := n; lyrics := fragments pages |} ].
Proof.
  unfold _combine_pages_lyrics. by rewrite !combine_pages_stream, fragments_single.
Qed.

(** X2: every block of the combiner is well formed: the blocks are
    numbered 1, 2, ... in order, each has a non-empty text and a section
    string, and none has a page. *)
Theorem combine_blocks_well_formed (pages : list PageData) :
  let blocks := _combine_pages_lyrics pages in
  map line_number blocks = map (fun i => Some (Z.of_nat i)) (seq 1 (length blocks))
  /\ forallb (fun b => PyStr.nonempty (get_text b) && has_section b) blocks = true
  /\ Forall (fun b => page b = None) blocks.
Proof.
  intros blocks. split; [apply combine_pages_numbered|].
  split; [|apply combine_pages_no_page].
  pose proof (combine_pages_texts pages) as Ht.
  pose proof (flush_section_set pages) as Hs. fold blocks in Ht, Hs.
  induction blocks as [|b t IH]; [reflexivity|].
  cbn [forallb] in *. apply andb_true_iff in Ht as [Hb Ht].
  apply andb_true_iff in Hs as [Hsb Hs]. by rewrite Hb, Hsb, IH.
Qed.

(** X3: when every fragment has a non-empty text, the sections of the
    blocks are the sections of the fragments with each run of equal
    neighbours reduced to one: a block ends exactly where the section
    changes, and two neighbouring blocks never share a section. *)
Theorem combine_sections_collapse (pages : list PageData) :
  forallb (fun l => PyStr.nonempty (get_text l)) (fragments pages) = true ->
  map get_section (_combine_pages_lyrics pages)
  = collapse (map get_section (fragments pages)).
Proof.
  unfold _combine_pages_lyrics. rewrite combine_pages_stream.
  destruct (fragments pages) as [|f rest]; [reflexivity|].
  intros Hall. cbn [forallb] in Hall. apply andb_true_iff in Hall as [Hf Hall].
  cbn [fold_left].
  rewrite (combine_loop_sections rest (combine_step combine_init f) (get_section f));
    [reflexivity|reflexivity| |exact Hall].
  unfold combine_step. cbn. by rewrite Hf.
Qed.

Lemma combine_sections_collapse_witness :
  forallb (fun l => PyStr.nonempty (get_text l)) (fragments verse_chorus_verse) = true
  /\ map get_section (_combine_pages_lyrics verse_chorus_verse)
     = ["verse 1"; "chorus"; "verse 1"].
Proof.
  split; [reflexivity|].
  apply (combine_sections_collapse verse_chorus_verse). reflexivity.
Defined.

(** ** Organizer and reformatter *)

Section ReformatterMore.
Import PyStr.

Lemma startswith_fence x :
  startswith "```" x = (3 <=? leading_backticks x)%nat.
Proof.
  destruct x as [|a [|b [|c r]]]; cbn [startswith leading_backticks];
    repeat (destruct (Ascii.eqb "`" _); cbn [andb]); reflexivity.
Qed.

Lemma replace_fence_hit rest :
  replace "```" EmptyString (String "`" (String "`" (String "`" rest)))
  = replace "```" EmptyString rest.
Proof. reflexivity. Qed.

Lemma replace_fence_miss c r :
  startswith "```" (String c r) = false ->
  replace "```" EmptyString (String c r)
  = String c (replace "```" EmptyString r).
Proof. intros Hs. unfold replace. cbn [replace_from]. by rewrite Hs. Qed.

Lemma fence_shape s :
  startswith "```" s = true ->
  exists rest, s = String "`" (String "`" (String "`" rest)).
Proof.
  destruct s as [|a [|b [|c r]]]; cbn [startswith]; try discriminate;
    try (destruct (Ascii.eqb "`" a); discriminate);
    try (destruct (Ascii.eqb "`" a), (Ascii.eqb "`" b); discriminate).
  destruct (Ascii.eqb_spec "`" a) as [<-|]; [|discriminate].
  destruct (Ascii.eqb_spec "`" b) as [<-|]; [|discriminate].
  destruct (Ascii.eqb_spec "`" c) as [<-|]; [|discriminate].
  intros _. by exists r.
Qed.

(** Removing the fences leaves no fence: what is left of a run of
    backticks is shorter than three. *)
Lemma replace_fence_clean n : forall s,
  (String.length s <= n)%nat ->
  (leading_backticks (replace "```" EmptyString s) <= leading_backticks s)%nat
  /\ contains "```" (replace "```" EmptyString s) = false.
Proof.
  induction n as [|n IH]; intros s Hn.
  - destruct s; [|cbn in Hn; lia]. by split.
  - destruct s as [|c r]; [by split|].
    destruct (startswith "```" (String c r)) eqn:Hs.
    + destruct (fence_shape _ Hs) as [rest Hrest]. rewrite Hrest in *.
      rewrite replace_fence_hit. cbn [String.length] in Hn.
      destruct (IH rest ltac:(lia)) as [Hl Hc]. split; [|exact Hc].
      cbn [leading_backticks]. rewrite Ascii.eqb_refl. lia.
    + rewrite (replace_fence_miss _ _ Hs). cbn [String.length] in Hn.
      destruct (IH r ltac:(lia)) as [Hl Hc].
      rewrite startswith_fence in Hs. apply Nat.leb_gt in Hs.
      cbn [leading_backticks] in *. destruct (Ascii.eqb "`" c) eqn:Hbt.
      * split; [lia|]. cbn [contains]. rewrite Hc, orb_false_r.
        rewrite startswith_fence. apply Nat.leb_gt.
        cbn [leading_backticks]. rewrite Hbt. lia.
      * split; [lia|]. cbn [contains]. rewrite Hc, orb_false_r.
        rewrite startswith_fence. apply Nat.leb_gt.
        cbn [leading_backticks]. rewrite Hbt. lia.
Qed.

Lemma strip_nonempty s : nonempty (strip s) = true -> nonempty s = true.
Proof. by destruct s. Qed.

Lemma organize_texts l :
  forallb text_nonempty (_organize_lyrics l) = true.
Proof.
  unfold _organize_lyrics. induction l as [|x t IH]; [reflexivity|].
  cbn [List.filter]. destruct (nonempty (strip (get_text x))) eqn:Hx; [|exact IH].
  cbn [forallb]. unfold text_nonempty at 1. by rewrite (strip_nonempty _ Hx).
Qed.

Lemma organize_nonblank l :
  forallb (fun x => nonblank (get_text x)) (_organize_lyrics l) = true.
Proof.
  unfold _organize_lyrics, nonblank. induction l as [|x t IH]; [reflexivity|].
  cbn [List.filter]. destruct (nonempty (strip (get_text x))) eqn:Hx; [|exact IH].
  cbn [forallb]. by rewrite Hx.
Qed.

Lemma organize_idem l : _organize_lyrics (_organize_lyrics l) = _organize_lyrics l.
Proof.
  unfold _organize_lyrics. induction l as [|x t IH]; [reflexivity|].
  cbn [List.filter]. destruct (nonempty (strip (get_text x))) eqn:Hx; [|exact IH].
  cbn [List.filter]. by rewrite Hx, IH.
Qed.

Lemma filter_all (l : list Lyric) (f : Lyric -> bool) :
  forallb f l = true -> List.filter f l = l.
Proof.
  induction l as [|x t IH]; [reflexivity|]. cbn [forallb List.filter].
  intros Hall. apply andb_true_iff in Hall as [-> Ht]. by rewrite IH.
Qed.

Context `{ModelService}.
Variable api_key : string.

(** What the loop body appends keeps the labels of its block. *)
Lemma reformat_one_labels (lyric : Lyric) (w : World) :
  let out := fst (reformat_one api_key lyric w) in
  let kept := List.filter text_nonempty [lyric] in
  map get_section out = map get_section kept
  /\ map get_line_number out = map get_line_number kept
  /\ map get_page out = map get_page kept.
Proof.
  unfold reformat_one. cbn [List.filter]. unfold text_nonempty.
  destruct (nonempty (get_text lyric)); cbn [negb]; [|by repeat split].
  by destruct (step_b api_key lyric w) as [[c|e] w2].
Qed.

Lemma reformat_labels (lyrics_data : list Lyric) : forall w : World,
  let out := fst (_reformat_lyrics_poetically api_key lyrics_data w) in
  let kept := List.filter text_nonempty lyrics_data in
  map get_section out = map get_section kept
  /\ map get_line_number out = map get_line_number kept
  /\ map get_page out = map get_page kept.
Proof.
  induction lyrics_data as [|x t IH]; intros w; [by repeat split|].
  cbn [_reformat_lyrics_poetically].
  destruct (reformat_one_labels x w) as (Hs & Hn & Hp).
  destruct (reformat_one api_key x w) as [o w1]. destruct (IH w1) as (Hs' & Hn' & Hp').
  destruct (_reformat_lyrics_poetically api_key t w1) as [ot wt].
  cbn [fst] in *. cbn zeta.
  replace (List.filter text_nonempty (x :: t))
    with (List.filter text_nonempty [x] ++ List.filter text_nonempty t)
    by (cbn [List.filter]; by destruct (text_nonempty x)).
  rewrite !map_app. by rewrite Hs, Hn, Hp, Hs', Hn', Hp'.
Qed.

End ReformatterMore.

(** X4: the reformatter returns one block for each input block that has
    a non-empty text, in order, with the same section, line number and
    page reading, whether the calls to the service succeed or fail;
    blocks with an empty text are dropped. *)
Theorem reformat_keeps_labels `{ModelService} (api_key : string)
    (lyrics_data : list Lyric) (w : World) :
  let out := fst (_reformat_lyrics_poetically api_key lyrics_data w) in
  let kept := List.filter text_nonempty lyrics_data in
  map get_section out = map get_section kept
  /\ map get_line_number out = map get_line_number kept
  /\ map get_page out = map get_page kept.
Proof. apply reformat_labels. Qed.

(** X5: organizing is idempotent and leaves only blocks with a non-blank
    text, so the reformatter that follows it drops nothing: it returns
    exactly one block per organized block, with the same sections and
    line numbers. *)
Theorem organize_then_reformat `{ModelService} (api_key : string)
    (all_lyrics : list Lyric) (w : World) :
  let organized := _organize_lyrics all_lyrics in
  let out := fst (_reformat_lyrics_poetically api_key organized w) in
  _organize_lyrics organized = organized
  /\ forallb (fun l => nonblank (get_text l)) organized = true
  /\ length out = length organized
  /\ map get_section out = map get_section organized
  /\ map get_line_number out = map get_line_number organized.
Proof.
  intros organized out. subst out.
  destruct (reformat_labels api_key organized w) as (Hs & Hn & _).
  cbn zeta in Hs, Hn.
  rewrite (filter_all organized text_nonempty (organize_texts all_lyrics)) in Hs, Hn.
  split; [apply organize_idem|]. split; [apply organize_nonblank|].
  split; [|by split].
  by rewrite <- (length_map get_section), Hs, length_map.
Qed.

(** X6: when the reformatting call succeeds, the block produced holds
    the stripped reply with every code fence removed, so its text
    contains no triple backtick, and it keeps the section and the line
    number of the input block. *)
Theorem reformat_success_no_fence `{ModelService} (api_key : string)
    (lyric : Lyric) (w w2 : World) (content : string) :
  PyStr.nonempty (get_text lyric) = true ->
  step_b api_key lyric w = (Ok content, w2) ->
  exists block,
    reformat_one api_key lyric w = ([block], w2)
    /\ text block = Some (PyStr.replace "```" EmptyString (PyStr.strip content))
    /\ PyStr.contains "```" (get_text block) = false
    /\ section block = Some (get_section lyric)
    /\ line_number block = Some (get_line_number lyric).
Proof.
  intros Ht Hb. unfold reformat_one. rewrite Ht, Hb. cbn [negb].
  eexists. split; [reflexivity|]. cbn [text section line_number get_text default from_option id].
  repeat split.
  exact (proj2 (replace_fence_clean _ (PyStr.strip content) (le_n _))).
Qed.

Lemma reformat_success_no_fence_witness :
  exists block,
    @reformat_one Stubs.scripted "sk-test" raw_block fenced_script = ([block], [])
    /\ text block
       = Some (String PyStr.nl ("my Alice fair, Her cheek like" +:+ String PyStr.nl EmptyString))
    /\ PyStr.contains "```" (get_text block) = false.
Proof.
  destruct (@reformat_success_no_fence Stubs.scripted "sk-test" raw_block
              fenced_script [] fenced_reply eq_refl eq_refl)
    as (block & Hone & Htext & Hclean & _).
  exists block. split; [exact Hone|]. split; [exact Htext|exact Hclean].
Defined.

(** ** Slide segmenter and deck *)

Section SegmenterMore.
Import PyStr PyStrFacts.

Lemma has_nl_cons c r : has_nl (String c r) = Ascii.eqb nl c || has_nl r.
Proof. unfold has_nl. cbn [contains]. by rewrite startswith_nl_head. Qed.

(** No piece of a split holds the separator. *)
Lemma split_pieces_no_nl s : Forall (fun l => has_nl l = false) (split nl s).
Proof.
  induction s as [|c r IH]; [by repeat constructor|].
  cbn [split]. destruct (Ascii.eqb c nl) eqn:Hc.
  - constructor; [reflexivity|exact IH].
  - pose proof (split_not_nil nl r) as Hne.
    destruct (split nl r) as [|h t]; [congruence|].
    inversion IH as [|? ? Hh Ht]; subst. constructor; [|exact Ht].
    by rewrite has_nl_cons, Ascii.eqb_sym, Hc, Hh.
Qed.

Lemma lstrip_no_nl s : has_nl s = false -> has_nl (lstrip s) = false.
Proof.
  induction s as [|c r IH]; [done|]. intros Hs. cbn [lstrip].
  destruct (isspace c); [|exact Hs].
  rewrite has_nl_cons in Hs. apply orb_false_iff in Hs as [_ Hr]. by apply IH.
Qed.

Lemma rstrip_no_nl s : has_nl s = false -> has_nl (rstrip s) = false.
Proof.
  induction s as [|c r IH]; [done|]. rewrite has_nl_cons. intros Hs.
  apply orb_false_iff in Hs as [Hc Hr]. specialize (IH Hr). cbn [rstrip].
  destruct (rstrip r) as [|d r'].
  - destruct (isspace c); [reflexivity|]. by rewrite has_nl_cons, Hc.
  - by rewrite has_nl_cons, Hc, IH.
Qed.

Lemma strip_no_nl s : has_nl s = false -> has_nl (strip s) = false.
Proof. intros Hs. unfold strip. by apply rstrip_no_nl, lstrip_no_nl. Qed.

(** The lines the segmenter keeps each fill one physical line. *)
Lemma kept_lines_one_line s :
  Forall one_line (List.filter nonempty (map strip (split nl s))).
Proof.
  pose proof (split_pieces_no_nl s) as Hp.
  induction Hp as [|l t Hl _ IH]; [constructor|]. cbn [map List.filter].
  destruct (nonempty (strip l)) eqn:Hn; [|exact IH].
  constructor; [|exact IH]. split; [exact Hn|]. split; [by apply strip_no_nl|].
  apply strip_idem.
Qed.

Lemma segment_block_single lyric :
  Forall (fun segment => exists entry,
            segment = [entry] /\ one_line (get_text entry)
            /\ get_section entry = get_section lyric
            /\ get_line_number entry = get_line_number lyric)
         (segment_block lyric).
Proof.
  rewrite segment_block_lines.
  pose proof (kept_lines_one_line (get_text lyric)) as Hk.
  induction Hk as [|l t Hl _ IH]; [constructor|]. cbn [map].
  constructor; [|exact IH]. by exists (line_entry lyric l).
Qed.

Lemma lyric_slides_numbers segments : forall i total,
  map slide_num (lyric_slides segments i total)
  = map (fun k => (i + Z.of_nat k)%Z) (seq 0 (length segments))
  /\ Forall (fun slide => total_slides slide = total) (lyric_slides segments i total).
Proof.
  induction segments as [|seg rest IH]; intros i total; [by split|].
  cbn [lyric_slides map length seq]. destruct (IH (i + 1)%Z total) as [Hn Ht].
  split; [|by constructor].
  rewrite Hn, <- seq_shift, map_map. f_equal; [cbn; lia|].
  apply map_ext. intros k. lia.
Qed.

Lemma lyric_slides_texts segments : forall i total,
  forallb single_entry segments = true ->
  map slide_lyrics (lyric_slides segments i total) = segment_texts segments
  /\ map slide_section (lyric_slides segments i total)
     = map get_section (concat segments).
Proof.
  induction segments as [|seg rest IH]; intros i total Hall; [by split|].
  cbn [forallb] in Hall. apply andb_true_iff in Hall as [Hs Hall].
  destruct seg as [|e [|? ?]]; try discriminate.
  destruct (IH (i + 1)%Z total Hall) as [Ht Hsec].
  cbn [lyric_slides map concat app slide_lyrics slide_section join].
  unfold segment_texts in *. cbn [concat map app]. by rewrite Ht, Hsec.
Qed.

Lemma segment_block_singles lyric : forallb single_entry (segment_block lyric) = true.
Proof.
  rewrite segment_block_lines. by induction (List.filter _ _) as [|l t IH].
Qed.

Lemma segments_singles lyrics_data n :
  forallb single_entry (segment_lyrics_for_slides lyrics_data n) = true.
Proof.
  rewrite segment_all_blocks. induction lyrics_data as [|b rest IH]; [reflexivity|].
  cbn [flat_map]. by rewrite forallb_app, segment_block_singles, IH.
Qed.

Lemma segments_count lyrics_data n :
  length (segment_lyrics_for_slides lyrics_data n)
  = length (List.filter nonblank (block_lines lyrics_data)).
Proof.
  rewrite <- (length_map strip), <- filter_strip_lines, <- (segment_texts_blocks _ n).
  pose proof (segments_singles lyrics_data n) as Hs.
  unfold segment_texts. rewrite length_map.
  induction (segment_lyrics_for_slides lyrics_data n) as [|seg rest IH]; [reflexivity|].
  cbn [forallb] in Hs. apply andb_true_iff in Hs as [Hseg Hs].
  destruct seg as [|e [|? ?]]; try discriminate. cbn [concat app length].
  by rewrite (IH Hs).
Qed.

End SegmenterMore.

(** X7: every slide segment holds exactly one entry, whose text fills one
    physical line (not empty, no line break, no white space at its ends)
    and whose section and line number are read from a block of the
    input; the value of [max_lines_per_slide] changes nothing. *)
Theorem segments_are_single_lines (lyrics_data : list Lyric) (n m : Z) :
  segment_lyrics_for_slides lyrics_data n = segment_lyrics_for_slides lyrics_data m
  /\ Forall (fun segment => exists entry lyric,
               segment = [entry] /\ In lyric lyrics_data
               /\ one_line (get_text entry)
               /\ get_section entry = get_section lyric
               /\ get_line_number entry = get_line_number lyric)
            (segment_lyrics_for_slides lyrics_data n).
Proof.
  split; [by rewrite !segment_all_blocks|].
  rewrite segment_all_blocks.
  induction lyrics_data as [|b rest IH]; [constructor|].
  cbn [flat_map]. apply Forall_app. split.
  - eapply Forall_impl; [apply segment_block_single|].
    intros seg (e & -> & Hl & Hs & Hn). exists e, b.
    split; [done|]. split; [by left|]. split; [exact Hl|]. by split.
  - eapply Forall_impl; [exact IH|].
    intros seg (e & l & -> & Hin & Hrest). exists e, l. split; [done|].
    split; [by right|exact Hrest].
Qed.

(** X8: [create_powerpoint] returns the number of non-blank lines of the
    blocks and writes one file, the deck, at the output path: the deck
    has the given title and one slide per non-blank line, in order, whose
    text is the stripped line, and the slides are numbered 1, 2, ... and
    all show the returned number as total. *)
Theorem create_powerpoint_deck `{Documents} (lyrics_data : list Lyric)
    (output_path title : string) (max_lines_per_slide : Z) (fs : gmap string bytes) :
  let lines := List.filter nonblank (block_lines lyrics_data) in
  let count := Z.of_nat (length lines) in
  exists slides,
    create_powerpoint lyrics_data output_path title max_lines_per_slide fs
    = (count, <[output_path := pptx_bytes {| deck_title := title; deck_slides := slides |}]> fs)
    /\ map slide_lyrics slides = map PyStr.strip lines
    /\ map slide_num slides = map Z.of_nat (seq 1 (length lines))
    /\ Forall (fun slide => total_slides slide = count) slides.
Proof.
  intros lines count. unfold create_powerpoint.
  pose proof (segments_count lyrics_data max_lines_per_slide) as Hcount.
  fold lines in Hcount.
  set (segments := segment_lyrics_for_slides lyrics_data max_lines_per_slide) in *.
  exists (lyric_slides segments 1 (Z.of_nat (length segments))).
  destruct (lyric_slides_numbers segments 1 (Z.of_nat (length segments))) as [Hn Ht].
  destruct (lyric_slides_texts segments 1 (Z.of_nat (length segments))
              (segments_singles lyrics_data max_lines_per_slide)) as [Htx _].
  subst count. rewrite <- Hcount. split; [reflexivity|]. split; [|split].
  - rewrite Htx. subst segments lines.
    by rewrite segment_texts_blocks, filter_strip_lines.
  - rewrite Hn, <- seq_shift, map_map. apply map_ext. intros k. lia.
  - exact Ht.
Qed.

(** ** Image preparer and page rendering *)

Section ImageMore.
Context `{ImageCodec} `{Documents}.

Lemma render_loop_body page limit dpi img_data :
  render_loop page limit dpi img_data
  = if Z_le_dec 100 dpi then
      if (len (get_pixmap_png page dpi) <=? limit)%Z
      then get_pixmap_png page dpi
      else render_loop page limit (dpi - 50) (get_pixmap_png page dpi)
    else img_data.
Proof.
  simp render_loop. destruct (Z_le_dec 100 dpi); simp render_loop; reflexivity.
Qed.

(** From 200 the loop renders at 200, 150 and 100 and stops at the first
    buffer that fits; when none fits it is left with the one at 100. *)
Lemma render_loop_find page limit img_data :
  render_loop page limit 200 img_data
  = match List.find (fun dpi => len (get_pixmap_png page dpi) <=? limit)%Z tried_dpis with
    | Some dpi => get_pixmap_png page dpi
    | None => get_pixmap_png page 100
    end.
Proof.
  unfold tried_dpis. cbn [List.find].
  do 3 (rewrite render_loop_body;
        destruct (Z_le_dec 100 _) as [_|Hn]; [|exfalso; lia];
        destruct (len (get_pixmap_png page _) <=? limit)%Z; [reflexivity|];
        cbn [Z.sub Z.add Z.opp Z.pos_sub Pos.pred_double]).
  rewrite render_loop_body.
  destruct (Z_le_dec 100 _) as [Hn|_]; [exfalso; lia|]. reflexivity.
Qed.

End ImageMore.

Ltac leb_to_prop :=
  repeat match goal with
         | H : (_ <=? _)%Z = false |- _ => apply Z.leb_gt in H
         | H : (_ <=? _)%Z = true |- _ => apply Z.leb_le in H
         end.

(** X9: when one of the quality levels tried fits the ceiling, the image
    preparer returns the buffer of the highest such level: every level
    tried above it gives a buffer over the ceiling. *)
Theorem compress_best_quality `{ImageCodec} (img_data : bytes) (max_size q : Z) :
  let img := image_open_rgb img_data in
  In q tried_qualities ->
  (len (save_jpeg img q) <= max_size)%Z ->
  exists best,
    In best tried_qualities /\ (q <= best)%Z
    /\ _compress_image img_data max_size = save_jpeg img best
    /\ (len (save_jpeg img best) <= max_size)%Z
    /\ (forall q', In q' tried_qualities -> (best < q')%Z ->
                   (max_size < len (save_jpeg img q'))%Z).
Proof.
  intros img Hin Hfit. unfold _compress_image. fold img.
  rewrite compress_loop_find. unfold tried_qualities in *. cbn [List.find].
  repeat match goal with
         | |- context [(len (save_jpeg img ?x) <=? max_size)%Z] =>
             destruct (len (save_jpeg img x) <=? max_size)%Z eqn:?
         end;
    leb_to_prop; cbn [option_map In] in *;
    try (eexists; split; [|split; [|split; [reflexivity|split; [eassumption|]]]];
         [tauto|intuition (subst; lia)|intuition (subst; lia)]).
  exfalso. intuition (subst; lia).
Qed.

Lemma compress_best_quality_witness :
  exists best,
    (25 <= best)%Z
    /\ @_compress_image Stubs.toy_codec [] 40 = @save_jpeg Stubs.toy_codec 0%nat best
    /\ (len (@save_jpeg Stubs.toy_codec 0%nat best) <= 40)%Z.
Proof.
  destruct (@compress_best_quality Stubs.toy_codec [] 40 25) as (best & _ & Hq & He & Hl & _).
  - vm_compute. tauto.
  - vm_compute. discriminate.
  - exists best. split; [exact Hq|]. split; [exact He|exact Hl].
Defined.

(** X10: a page is rendered at 200, 150 and 100 DPI in turn and the first
    rendering within the size limit is its image, so the image is the
    one of the highest of these resolutions that fits; when none fits,
    the image is the lossy compression of the rendering at 100 DPI. *)
Theorem page_image_resolution `{ImageCodec} `{Documents} (page : Page) :
  (forall dpi, In dpi tried_dpis ->
     (len (get_pixmap_png page dpi) <= max_size)%Z ->
     exists best,
       In best tried_dpis /\ (dpi <= best)%Z
       /\ page_image page = get_pixmap_png page best
       /\ (len (page_image page) <= max_size)%Z
       /\ (forall dpi', In dpi' tried_dpis -> (best < dpi')%Z ->
                        (max_size < len (get_pixmap_png page dpi'))%Z))
  /\ ((forall dpi, In dpi tried_dpis -> (max_size < len (get_pixmap_png page dpi))%Z) ->
      page_image page = _compress_image (get_pixmap_png page 100) max_size).
Proof.
  unfold page_image. rewrite render_loop_find. unfold tried_dpis. cbn [List.find].
  split.
  - intros dpi Hin Hfit.
    repeat match goal with
           | |- context [(len (get_pixmap_png page ?x) <=? max_size)%Z] =>
               destruct (len (get_pixmap_png page x) <=? max_size)%Z eqn:?
           end;
      leb_to_prop; cbn [In] in *;
      try (exfalso; intuition (subst; lia)).
    all: eexists; split; [|split; [|split; [|split; [|]]]];
      [ |
        | match goal with
          | |- (if (?a <? ?b)%Z then _ else _) = _ =>
              destruct (Z.ltb_spec a b); [exfalso; lia|reflexivity]
          end
        | match goal with
          | |- (len (if (?a <? ?b)%Z then _ else _) <= _)%Z =>
              destruct (Z.ltb_spec a b); [exfalso; lia|eassumption]
          end
        | ]; [tauto|intuition (subst; lia)|intuition (subst; lia)].
  - intros Hall.
    pose proof (Hall 200%Z ltac:(cbn; tauto)) as H200.
    pose proof (Hall 150%Z ltac:(cbn; tauto)) as H150.
    pose proof (Hall 100%Z ltac:(cbn; tauto)) as H100.
    apply Z.leb_gt in H200 as ->. apply Z.leb_gt in H150 as ->.
    pose proof H100 as H100'. apply Z.leb_gt in H100' as ->.
    by apply Z.ltb_lt in H100 as ->.
Qed.

Lemma page_image_resolution_witness :
  (exists best,
     (100 <= best)%Z
     /\ @page_image Stubs.toy_codec Stubs.toy_documents Byte.x25
        = @get_pixmap_png Stubs.toy_documents Byte.x25 best)
  /\ @page_image Stubs.toy_codec heavy_documents Byte.x25
     = @_compress_image Stubs.toy_codec
         (@get_pixmap_png heavy_documents Byte.x25 100) max_size.
Proof.
  split.
  - destruct (proj1 (@page_image_resolution Stubs.toy_codec Stubs.toy_documents
                       Byte.x25) 100%Z)
      as (best & _ & Hd & He & _).
    + vm_compute. tauto.
    + vm_compute. discriminate.
    + exists best. split; [exact Hd|exact He].
  - apply (proj2 (@page_image_resolution Stubs.toy_codec heavy_documents Byte.x25)).
    intros dpi Hin. unfold len. cbn [get_pixmap_png heavy_documents].
    rewrite repeat_length. unfold tried_dpis in Hin. cbn [In] in Hin.
    unfold max_size. destruct Hin as [<-|[<-|[<-|[]]]]; rewrite Z2Nat.id; lia.
Defined.

(** ** Extraction and the pipeline *)

Section PipelineMore.
Context `{ModelService} `{ImageCodec} `{JsonReader} `{Documents}.

(** A page adds at most one element, which has the 1-based number of the
    page, at least one fragment, and that number in every fragment. *)
Lemma extract_page_data api_key page_num pg (w : World) :
  fst (extract_page api_key page_num pg w) = []
  \/ exists pd,
       fst (extract_page api_key page_num pg w) = [pd]
       /\ pd_page pd = (page_num + 1)%Z
       /\ lyrics pd <> []
       /\ Forall (fun l => page l = Some (pd_page pd)) (lyrics pd).
Proof.
  unfold extract_page.
  pose proof (extract_fragments_tagged api_key
                (b64encode (page_image pg)) (page_num + 1) w) as Htag.
  destruct (_extract_lyrics_with_gpt4 _ _ _ w) as [[|d ds] w']; cbn [fst] in *;
    [by left|].
  right. eexists. split; [reflexivity|]. split; [reflexivity|].
  split; [discriminate|].
  cbn [lyrics pd_page]. apply Forall_map. eapply Forall_impl; [exact Htag|].
  intros x Hx. by apply lyric_of_dict_page.
Qed.

Lemma extract_pages_data api_key pages : forall first (w : World),
  Forall (fun pd => (first < pd_page pd <= first + Z.of_nat (length pages))%Z
                    /\ lyrics pd <> []
                    /\ Forall (fun l => page l = Some (pd_page pd)) (lyrics pd))
         (fst (extract_pages api_key first pages w))
  /\ StronglySorted Z.lt (map pd_page (fst (extract_pages api_key first pages w))).
Proof.
  induction pages as [|pg rest IH]; intros first w.
  - split; constructor.
  - cbn [extract_pages]. pose proof (extract_page_data api_key first pg w) as Hp.
    destruct (extract_page api_key first pg w) as [pd w1].
    destruct (IH (first + 1)%Z w1) as [Hr Hs].
    destruct (extract_pages api_key (first + 1) rest w1) as [pds w2].
    cbn [fst length] in *.
    assert (Hr' : Forall (fun pd => (first < pd_page pd
                                     <= first + Z.of_nat (S (length rest)))%Z
                    /\ lyrics pd <> []
                    /\ Forall (fun l => page l = Some (pd_page pd)) (lyrics pd)) pds).
    { eapply Forall_impl; [exact Hr|]. intros x (Hx & Hne & Hall).
      split; [lia|by split]. }
    destruct Hp as [->|(x & -> & Hx & Hne & Hall)]; [by split|].
    cbn [app map]. split.
    + constructor; [|exact Hr']. split; [lia|by split].
    + constructor; [exact Hs|]. apply Forall_map.
      eapply Forall_impl; [exact Hr|]. intros y (Hy & _). lia.
Qed.

(** Every block the reformatter returns has a [text] key. *)
Lemma reformat_has_text api_key lyrics_data : forall w : World,
  forallb has_text (fst (_reformat_lyrics_poetically api_key lyrics_data w)) = true.
Proof.
  induction lyrics_data as [|x t IH]; intros w; [reflexivity|].
  cbn [_reformat_lyrics_poetically].
  assert (Ho : forallb has_text (fst (reformat_one api_key x w)) = true).
  { unfold reformat_one.
    destruct (PyStr.nonempty (get_text x)) eqn:Hn; cbn [negb]; [|reflexivity].
    assert (Hx : has_text x = true)
      by (unfold has_text, get_text in *; by destruct (text x)).
    destruct (step_b api_key x w) as [[c|e] w2]; cbn [fst forallb];
      [reflexivity|by rewrite Hx]. }
  destruct (reformat_one api_key x w) as [o w1]. specialize (IH w1).
  destruct (_reformat_lyrics_poetically api_key t w1) as [ot wt].
  cbn [fst] in *. by rewrite forallb_app, Ho, IH.
Qed.

Lemma extract_has_text api_key pdf_path (s s1 : Sys) lyrics_data :
  extract_lyrics_from_pdf api_key pdf_path s = (Ok lyrics_data, s1) ->
  forallb has_text lyrics_data = true.
Proof.
  unfold extract_lyrics_from_pdf. destruct (files s !! pdf_path) as [data|]; [|done].
  destruct (fitz_open data) as [pages|e]; [|done].
  destruct (extract_pages api_key 0 pages (world s)) as [apl w1].
  pose proof (reformat_has_text api_key
                (_organize_lyrics (_combine_pages_lyrics apl)) w1) as Ht.
  destruct (_reformat_lyrics_poetically _ _ w1) as [ld w2].
  by intros [= <- _].
Qed.

(** A run that finds lyrics exports them, then saves the deck. *)
Lemma process_with_lyrics pdf_path output_pptx api_key title n (s s1 : Sys) l ls :
  extract_lyrics_from_pdf api_key pdf_path s = (Ok (l :: ls), s1) ->
  process_sheet_music_with_gpt4 pdf_path output_pptx api_key title n true s
  = (Ok (Some (l :: ls)),
     {| files :=
          snd (create_powerpoint (l :: ls) output_pptx (deck_title_for title) n
                 (<[PyStr.replace ".pptx" "_lyrics.txt" output_pptx
                    := list_byte_of_string (export_content (l :: ls))]> (files s)));
        world := world s1 |}).
Proof.
  intros He. unfold process_sheet_music_with_gpt4. rewrite He.
  unfold export_lyrics_to_text, export_lyrics_text.
  rewrite (export_loop_chunks (l :: ls) export_init [] eq_refl
             (extract_has_text _ _ _ _ _ He)).
  cbn [written export_init]. rewrite (extract_keeps_files _ _ _ _ _ He).
  unfold deck_title_for, export_content.
  by destruct (create_powerpoint _ _ _ _ _).
Qed.

End PipelineMore.

Section PipelineMore2.
Context `{ModelService} `{ImageCodec} `{JsonReader} `{Documents}.

Lemma lyric_slides_length segments : forall i total,
  length (lyric_slides segments i total) = length segments.
Proof.
  induction segments as [|seg rest IH]; intros i total; [reflexivity|].
  cbn [lyric_slides length]. by rewrite IH.
Qed.

Lemma replace_absent old new s :
  PyStr.contains old s = false -> PyStr.replace old new s = s.
Proof.
  unfold PyStr.replace. induction s as [|c r IH]; [reflexivity|].
  cbn [PyStr.contains PyStr.replace_from]. intros Hc.
  apply orb_false_iff in Hc as [-> Hr]. by rewrite (IH Hr).
Qed.

End PipelineMore2.

(** X11: the pages of a PDF are numbered from 1: each element of the
    extraction result has a page number between 1 and the page count,
    at least one fragment, and that page number in every fragment; the
    page numbers increase strictly, and a page that gave no fragment
    has no element. *)
Theorem extract_pages_numbered
    `{ModelService} `{ImageCodec} `{JsonReader} `{Documents}
    (api_key : string) (pages : list Page) (w : World) :
  let all_page_lyrics := fst (extract_pages api_key 0 pages w) in
  Forall (fun pd => (1 <= pd_page pd <= Z.of_nat (length pages))%Z
                    /\ lyrics pd <> []
                    /\ Forall (fun l => page l = Some (pd_page pd)) (lyrics pd))
         all_page_lyrics
  /\ StronglySorted Z.lt (map pd_page all_page_lyrics).
Proof.
  cbn zeta. destruct (extract_pages_data api_key pages 0 w) as [Hall Hs].
  split; [|exact Hs]. eapply Forall_impl; [exact Hall|].
  intros pd (Hp & Hne & Hl). split; [lia|by split].
Qed.

(** X12: when the input file is missing or is not a readable PDF, the
    script exits with code 1 and an error message, without calling the
    service and without writing any file. *)
Theorem cli_unreadable_input
    `{ModelService} `{ImageCodec} `{JsonReader} `{Documents}
    (prog input_pdf output_pptx title api_key : string) (s : Sys) :
  files s !! input_pdf = None
  \/ (exists data e, files s !! input_pdf = Some data /\ fitz_open data = Raise e) ->
  exists e,
    cli_main [prog; input_pdf; output_pptx; title; api_key] s
    = ({| exit_code := 1; message := Error e |}, s).
Proof.
  intros Hin. cbn [cli_main].
  unfold process_sheet_music_with_gpt4, extract_lyrics_from_pdf.
  destruct Hin as [->|(data & e & -> & ->)]; by eexists.
Qed.

Lemma cli_unreadable_input_witness :
  exists e,
    @cli_main Stubs.scripted Stubs.toy_codec MiniJson.reader Stubs.toy_documents
      ["run_gpt4_cli.py"; "missing.pdf"; "out.pptx"; "Song"; "sk-test"] online_with_pdf
    = ({| exit_code := 1; message := Error e |}, online_with_pdf).
Proof.
  apply (@cli_unreadable_input Stubs.scripted Stubs.toy_codec MiniJson.reader
           Stubs.toy_documents "run_gpt4_cli.py" "missing.pdf" "out.pptx" "Song"
           "sk-test" online_with_pdf).
  left. reflexivity.
Defined.

(** X13: a run that extracts at least one block returns its processor
    and writes two files and no other: the deck at the output path, with
    the given title (or the default one) and one slide per non-blank
    line, and, when its path differs from the output path, the text
    export of the blocks; the other files are left as they were. *)
Theorem run_with_lyrics_files
    `{ModelService} `{ImageCodec} `{JsonReader} `{Documents}
    (pdf_path output_pptx api_key title : string) (n : Z) (s s1 : Sys)
    (l : Lyric) (ls : list Lyric) :
  extract_lyrics_from_pdf api_key pdf_path s = (Ok (l :: ls), s1) ->
  let text_path := PyStr.replace ".pptx" "_lyrics.txt" output_pptx in
  let run := process_sheet_music_with_gpt4 pdf_path output_pptx api_key title n true s in
  fst run = Ok (Some (l :: ls))
  /\ world (snd run) = world s1
  /\ (exists slides,
        files (snd run) !! output_pptx
        = Some (pptx_bytes {| deck_title := deck_title_for title; deck_slides := slides |})
        /\ length slides = length (List.filter nonblank (block_lines (l :: ls))))
  /\ (text_path <> output_pptx ->
      files (snd run) !! text_path
      = Some (list_byte_of_string (export_content (l :: ls))))
  /\ (forall p, p <> output_pptx -> p <> text_path ->
                files (snd run) !! p = files s !! p).
Proof.
  intros He text_path run. subst run.
  rewrite (process_with_lyrics _ _ _ _ _ _ _ _ _ He). fold text_path.
  unfold create_powerpoint. cbn [fst snd files world].
  split; [reflexivity|]. split; [reflexivity|]. split; [|split].
  - eexists. split; [apply lookup_insert_eq|].
    by rewrite lyric_slides_length, segments_count.
  - intros Hne. rewrite lookup_insert_ne by done. apply lookup_insert_eq.
  - intros p Hp Ht. by rewrite !lookup_insert_ne.
Qed.

Lemma run_with_lyrics_files_witness :
  fst (@process_sheet_music_with_gpt4 Stubs.scripted Stubs.toy_codec MiniJson.reader
         Stubs.toy_documents "song.pdf" "out.pptx" "sk-test" "Song" 1 true
         online_with_pdf)
  = Ok (Some [la_block])
  /\ files (snd (@process_sheet_music_with_gpt4 Stubs.scripted Stubs.toy_codec
                   MiniJson.reader Stubs.toy_documents "song.pdf" "out.pptx" "sk-test"
                   "Song" 1 true online_with_pdf)) !! "out_lyrics.txt"
     = Some (list_byte_of_string (export_content [la_block])).
Proof.
  destruct (@run_with_lyrics_files Stubs.scripted Stubs.toy_codec MiniJson.reader
              Stubs.toy_documents "song.pdf" "out.pptx" "sk-test" "Song" 1
              online_with_pdf offline_with_pdf la_block [] eq_refl)
    as (Hrun & _ & _ & Htext & _).
  split; [exact Hrun|]. apply Htext. vm_compute. discriminate.
Defined.

(** X14: when the output path does not contain [.pptx], the text export
    is written at the output path itself and then overwritten by the
    deck: the run leaves one new file, the deck, and no text export. *)
Theorem run_without_pptx_suffix
    `{ModelService} `{ImageCodec} `{JsonReader} `{Documents}
    (pdf_path output_pptx api_key title : string) (n : Z) (s s1 : Sys)
    (l : Lyric) (ls : list Lyric) :
  PyStr.contains ".pptx" output_pptx = false ->
  extract_lyrics_from_pdf api_key pdf_path s = (Ok (l :: ls), s1) ->
  let run := process_sheet_music_with_gpt4 pdf_path output_pptx api_key title n true s in
  (exists slides,
     files (snd run) !! output_pptx
     = Some (pptx_bytes {| deck_title := deck_title_for title; deck_slides := slides |}))
  /\ (forall p, p <> output_pptx -> files (snd run) !! p = files s !! p).
Proof.
  intros Hno He run. subst run.
  rewrite (process_with_lyrics _ _ _ _ _ _ _ _ _ He), (replace_absent _ _ _ Hno).
  unfold create_powerpoint. cbn [fst snd files world]. split.
  - eexists. apply lookup_insert_eq.
  - intros p Hp. by rewrite !lookup_insert_ne.
Qed.

Lemma run_without_pptx_suffix_witness :
  PyStr.contains ".pptx" "out.ppt" = false
  /\ dom (files (snd (@process_sheet_music_with_gpt4 Stubs.scripted Stubs.toy_codec
                        MiniJson.reader Stubs.toy_documents "song.pdf" "out.ppt"
                        "sk-test" "Song" 1 true online_with_pdf)))
     = {["song.pdf"; "out.ppt"]}
  /\ forall p, p <> "out.ppt" ->
       files (snd (@process_sheet_music_with_gpt4 Stubs.scripted Stubs.toy_codec
                     MiniJson.reader Stubs.toy_documents "song.pdf" "out.ppt"
                     "sk-test" "Song" 1 true online_with_pdf)) !! p
       = files online_with_pdf !! p.
Proof.
  split; [reflexivity|]. split; [by vm_compute|].
  apply (proj2 (@run_without_pptx_suffix Stubs.scripted Stubs.toy_codec MiniJson.reader
                  Stubs.toy_documents "song.pdf" "out.ppt" "sk-test" "Song" 1
                  online_with_pdf offline_with_pdf la_block [] eq_refl eq_refl)).
Defined.

(** X15: with any number of arguments other than four (five entries in
    [argv]), the script prints its usage line and exits with code 1
    without reading the input, calling the service or writing a file. *)
Theorem cli_wrong_argument_count
    `{ModelService} `{ImageCodec} `{JsonReader} `{Documents}
    (argv : list string) (s : Sys) :
  length argv <> 5%nat ->
  cli_main argv s = ({| exit_code := 1; message := Usage |}, s).
Proof.
  intros Hlen. destruct argv as [|a [|b [|c [|d [|e [|f rest]]]]]]; try reflexivity.
  by destruct Hlen.
Qed.

Lemma cli_wrong_argument_count_witness :
  @cli_main Stubs.scripted Stubs.toy_codec MiniJson.reader Stubs.toy_documents
    ["run_gpt4_cli.py"; "song.pdf"; "out.pptx"] online_with_pdf
  = ({| exit_code := 1; message := Usage |}, online_with_pdf).
Proof.
  apply (@cli_wrong_argument_count Stubs.scripted Stubs.toy_codec MiniJson.reader
           Stubs.toy_documents). cbn. lia.
Defined.

(** ** Request front-end *)

Section WebMore.
Import PyStr.

Lemma contains_char_app a x y :
  contains (String a EmptyString) (x +:+ y)
  = contains (String a EmptyString) x || contains (String a EmptyString) y.
Proof.
  induction x as [|c r IH].
  - change (EmptyString +:+ y) with y. by destruct y.
  - rewrite append_cons, !contains_char_cons, IH. by rewrite orb_assoc.
Qed.

Lemma startswith_slash_app ts r :
  contains "/" ts = false -> startswith "/" (ts +:+ String "_" r) = false.
Proof.
  destruct ts as [|c t]; [reflexivity|].
  rewrite contains_char_cons, append_cons, startswith_char.
  intros Hc. by apply orb_false_iff in Hc as [-> _].
Qed.

Lemma join_upload_folder x :
  startswith "/" x = false -> os_path_join UPLOAD_FOLDER x = "/tmp/uploads/" +:+ x.
Proof. intros Hx. unfold os_path_join. by rewrite Hx. Qed.

Lemma join_output_folder x :
  startswith "/" x = false -> os_path_join OUTPUT_FOLDER x = "/tmp/outputs/" +:+ x.
Proof. intros Hx. unfold os_path_join. by rewrite Hx. Qed.

Lemma basename_plain y : contains "/" y = false -> os_path_basename y = y.
Proof. destruct y as [|c r]; [reflexivity|]. cbn [os_path_basename]. by intros ->. Qed.

Lemma basename_output_folder y :
  os_path_basename ("/tmp/outputs/" +:+ y) = os_path_basename y.
Proof. reflexivity. Qed.

(** The path of the deck, and its base name, for a time stamp without
    slash. *)
Lemma deck_path_plain timestamp :
  contains "/" timestamp = false ->
  deck_path timestamp = "/tmp/outputs/" +:+ timestamp +:+ "_output.pptx"
  /\ os_path_basename (deck_path timestamp) = timestamp +:+ "_output.pptx".
Proof.
  intros Hts. unfold deck_path.
  rewrite (join_output_folder _ (startswith_slash_app _ _ Hts)).
  split; [reflexivity|]. rewrite basename_output_folder.
  apply basename_plain. rewrite contains_char_app, Hts. reflexivity.
Qed.

Lemma upload_path_plain secure_filename timestamp file :
  contains "/" timestamp = false ->
  upload_path secure_filename timestamp file
  = "/tmp/uploads/" +:+ timestamp +:+ "_" +:+ secure_filename (filename file).
Proof.
  intros Hts. unfold upload_path.
  change (timestamp +:+ "_" +:+ secure_filename (filename file))
    with (timestamp +:+ String "_" (secure_filename (filename file))).
  by rewrite (join_upload_folder _ (startswith_slash_app _ _ Hts)).
Qed.

Lemma upload_not_output x y : "/tmp/uploads/" +:+ x <> "/tmp/outputs/" +:+ y.
Proof. intros Heq. vm_compute in Heq. discriminate. Qed.



End WebMore.

Section WebMore2.
Context `{ModelService} `{ImageCodec} `{JsonReader} `{Documents}.
Variable secure_filename : string -> string.

(** Past its three guards, the handler saves the upload, runs the
    pipeline and removes the upload, whatever the outcome. *)
Lemma process_past_guards request timestamp (s : Sys) file api_key :
  request_files request !! "file" = Some file ->
  PyStr.endswith ".pdf" (filename file) = true ->
  request_form request !! "api_key" = Some api_key ->
  PyStr.nonempty api_key = true ->
  process secure_filename request timestamp s
  = let input_path := upload_path secure_filename timestamp file in
    let lyrics_path := PyStr.replace ".pptx" "_lyrics.txt" (deck_path timestamp) in
    match process_sheet_music_with_gpt4 input_path (deck_path timestamp) api_key
            (default "Unknown" (request_form request !! "title")) 1 true
            (with_upload secure_filename timestamp file s) with
    | (Ok _, s2) =>
        (jsonify (<["success" := JBool true]>
                 (<["lyrics_text" :=
                      JStr (match files s2 !! lyrics_path with
                            | Some content => string_of_list_byte content
                            | None => EmptyString
                            end)]>
                 (<["lyrics_html" :=
                      JStr (match files s2 !! lyrics_path with
                            | Some content => lyrics_to_html (string_of_list_byte content)
                            | None => EmptyString
                            end)]>
                 (<["pptx_path" := JStr (os_path_basename (deck_path timestamp))]> ∅)))),
         {| files := remove_if_exists input_path (files s2); world := world s2 |})
    | (Raise e, s2) =>
        (failure ("Processing failed: " +:+ e),
         {| files := remove_if_exists input_path (files s2); world := world s2 |})
    end.
Proof.
  intros Hfile Hpdf Hkey Hne. unfold process. rewrite Hfile, Hpdf, Hkey.
  rewrite (endswith_nonempty ".pdf" _ eq_refl Hpdf).
  cbn [negb orb default from_option id]. rewrite Hne. cbn [negb].
  cbn zeta. unfold upload_path, deck_path, with_upload.
  destruct (process_sheet_music_with_gpt4 _ _ _ _ _ _ _) as [[r|e] s2]; [|reflexivity].
  by destruct (files s2 !! _).
Qed.

End WebMore2.

(** X16: a request to process without an uploaded file is answered with
    the error [No file uploaded], and one whose file name does not end
    in [.pdf] with [Please upload a PDF file]; in both cases nothing is
    saved and the service is not called. *)
Theorem process_rejects_upload
    `{ModelService} `{ImageCodec} `{JsonReader} `{Documents}
    (secure_filename : string -> string)
    (request : ProcessRequest) (timestamp : string) (s : Sys) :
  (request_files request !! "file" = None ->
   process secure_filename request timestamp s = (failure "No file uploaded", s))
  /\ (forall file,
        request_files request !! "file" = Some file ->
        PyStr.endswith ".pdf" (filename file) = false ->
        process secure_filename request timestamp s
        = (failure "Please upload a PDF file", s)).
Proof.
  split.
  - intros Hf. unfold process. by rewrite Hf.
  - intros file Hf Hpdf. unfold process. rewrite Hf, Hpdf. cbn [negb].
    by rewrite orb_true_r.
Qed.

Lemma process_rejects_upload_witness :
  @process Stubs.scripted Stubs.toy_codec MiniJson.reader Stubs.toy_documents
    (fun name => name) no_upload "20240101_120000" online
  = (failure "No file uploaded", online)
  /\ @process Stubs.scripted Stubs.toy_codec MiniJson.reader Stubs.toy_documents
       (fun name => name) upload_text_file "20240101_120000" online
     = (failure "Please upload a PDF file", online).
Proof.
  split.
  - apply (proj1 (@process_rejects_upload Stubs.scripted Stubs.toy_codec
                    MiniJson.reader Stubs.toy_documents (fun name => name)
                    no_upload "20240101_120000" online)).
    reflexivity.
  - apply (proj2 (@process_rejects_upload Stubs.scripted Stubs.toy_codec
                    MiniJson.reader Stubs.toy_documents (fun name => name)
                    upload_text_file "20240101_120000" online)
             {| filename := "notes.txt"; stream := [Byte.x25] |});
      reflexivity.
Defined.

(** X17: for a request that passes the guards, the uploaded file is
    never kept: it is absent from the store when the handler returns,
    whether the pipeline succeeded or raised; and when the pipeline
    raises, the answer is [success: false] with the error
    [Processing failed: ] followed by the message of the exception. *)
Theorem process_removes_upload
    `{ModelService} `{ImageCodec} `{JsonReader} `{Documents}
    (secure_filename : string -> string)
    (request : ProcessRequest) (timestamp : string) (s : Sys)
    (file : FileStorage) (api_key : string) :
  request_files request !! "file" = Some file ->
  PyStr.endswith ".pdf" (filename file) = true ->
  request_form request !! "api_key" = Some api_key ->
  PyStr.nonempty api_key = true ->
  let input_path := upload_path secure_filename timestamp file in
  let answer := process secure_filename request timestamp s in
  files (snd answer) !! input_path = None
  /\ (forall e,
        fst (process_sheet_music_with_gpt4 input_path (deck_path timestamp) api_key
               (default "Unknown" (request_form request !! "title")) 1 true
               (with_upload secure_filename timestamp file s)) = Raise e ->
        fst answer = failure ("Processing failed: " +:+ e)).
Proof.
  intros Hfile Hpdf Hkey Hne input_path answer. subst answer.
  rewrite (process_past_guards secure_filename _ _ _ _ _ Hfile Hpdf Hkey Hne).
  cbn zeta. fold input_path.
  destruct (process_sheet_music_with_gpt4 _ _ _ _ _ _ _) as [[r|e'] s2];
    cbn [fst snd files].
  - split; [apply remove_if_exists_lookup|]. by intros e [=].
  - split; [apply remove_if_exists_lookup|]. by intros e [= ->].
Qed.

Lemma process_removes_upload_witness :
  @process Stubs.scripted Stubs.toy_codec MiniJson.reader Stubs.toy_documents
    (fun name => name) upload_empty_pdf "20240101_120000" online
  = (failure "Processing failed: cannot open empty document", online).
Proof.
  destruct (@process_removes_upload Stubs.scripted Stubs.toy_codec MiniJson.reader
              Stubs.toy_documents (fun name => name) upload_empty_pdf
              "20240101_120000" online {| filename := "song.pdf"; stream := [] |}
              "sk-test" eq_refl eq_refl eq_refl eq_refl) as [_ Hfail].
  specialize (Hfail "cannot open empty document" eq_refl).
  apply injective_projections; [exact Hfail|by vm_compute].
Defined.

Section WebMore3.
Context `{ModelService} `{ImageCodec} `{JsonReader} `{Documents}.
Variable secure_filename : string -> string.


Lemma upload_not_deck timestamp file :
  PyStr.contains "/" timestamp = false ->
  upload_path secure_filename timestamp file <> deck_path timestamp.
Proof.
  intros Hs. rewrite (upload_path_plain _ _ _ Hs), (proj1 (deck_path_plain _ Hs)).
  apply upload_not_output.
Qed.

End WebMore3.



(** X19: after a request whose pipeline extracted at least one block,
    the name returned as [pptx_path] can be downloaded: the download
    request for it on the resulting files answers 200 with the bytes of
    the deck, whose title is the form's title (or the default). *)
Theorem download_after_process
    `{ModelService} `{ImageCodec} `{JsonReader} `{Documents}
    (secure_filename : string -> string)
    (request : ProcessRequest) (timestamp : string) (s s1 : Sys)
    (file : FileStorage) (api_key : string) (l : Lyric) (ls : list Lyric) :
  request_files request !! "file" = Some file ->
  PyStr.endswith ".pdf" (filename file) = true ->
  request_form request !! "api_key" = Some api_key ->
  PyStr.nonempty api_key = true ->
  PyStr.contains "/" timestamp = false ->
  extract_lyrics_from_pdf api_key (upload_path secure_filename timestamp file)
    (with_upload secure_filename timestamp file s) = (Ok (l :: ls), s1) ->
  let answer := process secure_filename request timestamp s in
  let title := default "Unknown" (request_form request !! "title") in
  exists fields slides,
    body (fst answer) = JsonBody fields
    /\ fields !! "pptx_path" = Some (JStr (timestamp +:+ "_output.pptx"))
    /\ status (fst (download_file (timestamp +:+ "_output.pptx") (files (snd answer))))
       = 200%Z
    /\ body (fst (download_file (timestamp +:+ "_output.pptx") (files (snd answer))))
       = BytesBody (pptx_bytes {| deck_title := deck_title_for title;
                                  deck_slides := slides |}).
Proof.
  intros Hfile Hpdf Hkey Hne Hs He answer title. subst answer.
  rewrite (process_past_guards secure_filename _ _ _ _ _ Hfile Hpdf Hkey Hne).
  cbn zeta. rewrite (process_with_lyrics _ _ _ _ _ _ _ _ _ He).
  unfold create_powerpoint. cbn [fst snd files body jsonify].
  eexists. eexists. split; [reflexivity|]. split.
  - rewrite (proj2 (deck_path_plain _ Hs)). reflexivity.
  - unfold download_file. fold (deck_path timestamp).
    rewrite remove_if_exists_other by (intros Heq; symmetry in Heq;
                                       by apply (upload_not_deck secure_filename timestamp file Hs)).
    rewrite lookup_insert_eq. split; reflexivity.
Qed.

Lemma download_after_process_witness :
  status (fst (download_file "20240101_120000_output.pptx"
                 (files (snd (@process Stubs.scripted Stubs.toy_codec MiniJson.reader
                                Stubs.toy_documents (fun name => name) upload_with_key
                                "20240101_120000" online)))))
  = 200%Z.
Proof.
  destruct (@download_after_process Stubs.scripted Stubs.toy_codec MiniJson.reader
              Stubs.toy_documents (fun name => name) upload_with_key "20240101_120000"
              online
              (@with_upload Stubs.scripted (fun name => name) "20240101_120000"
                 song_upload offline)
              song_upload "sk-test" la_block [] eq_refl eq_refl eq_refl eq_refl
              eq_refl eq_refl)
    as (fields & slides & _ & _ & Hstatus & _).
  exact Hstatus.
Defined.

(** ** Serverless adapter *)

Section LambdaMore.
Variable AppState : Type.
Variable handle_request : LambdaEvent -> AppState -> LambdaResponse * AppState.

Lemma normalize_keeps_method event :
  is_options (normalize_event event) = is_options event.
Proof. unfold normalize_event. by destruct (PyStr.startswith _ _). Qed.

Lemma with_cors_headers response :
  exists h,
    resp_headers (with_cors response) = Some h
    /\ h !! "Access-Control-Allow-Origin" = Some ALLOW_ORIGIN
    /\ h !! "Access-Control-Allow-Methods" = Some ALLOW_METHODS
    /\ h !! "Access-Control-Allow-Headers" = Some ALLOW_HEADERS
    /\ (forall k, k <> "Access-Control-Allow-Origin" ->
                  k <> "Access-Control-Allow-Methods" ->
                  k <> "Access-Control-Allow-Headers" ->
                  h !! k = default ∅ (resp_headers response) !! k).
Proof.
  eexists. split; [reflexivity|]. split; [|split; [|split]].
  - do 2 rewrite lookup_insert_ne by done. apply lookup_insert_eq.
  - rewrite lookup_insert_ne by done. apply lookup_insert_eq.
  - apply lookup_insert_eq.
  - intros k Ho Hm Hh. by do 3 rewrite lookup_insert_ne by done.
Qed.

End LambdaMore.

(** X20: every response of the handler carries the three CORS headers
    with their fixed values, whatever the event and whatever the
    application answered, also when the application's response had no
    headers or other values for them. *)
Theorem handler_sets_cors (AppState : Type)
    (handle_request : LambdaEvent -> AppState -> LambdaResponse * AppState)
    (event : LambdaEvent) (st : AppState) :
  exists h,
    resp_headers (fst (handler AppState handle_request event st)) = Some h
    /\ h !! "Access-Control-Allow-Origin" = Some "*"
    /\ h !! "Access-Control-Allow-Methods" = Some "GET,POST,OPTIONS"
    /\ h !! "Access-Control-Allow-Headers"
       = Some "Content-Type,X-Amz-Date,Authorization,X-Api-Key,X-Amz-Security-Token".
Proof.
  unfold handler. destruct (is_options (normalize_event event)).
  - eexists. split; [reflexivity|]. by repeat split.
  - destruct (handle_request (normalize_event event) st) as [response st'].
    destruct (with_cors_headers response) as (h & Hh & Ho & Hm & Ha & _).
    exists h. by repeat split.
Qed.

(** X21: an OPTIONS request is answered by the handler itself, whatever
    its path: status 200, an empty body and the CORS headers with a
    maximal age of 86400; the application is not called and its state
    does not change. *)
Theorem handler_preflight (AppState : Type)
    (handle_request : LambdaEvent -> AppState -> LambdaResponse * AppState)
    (event : LambdaEvent) (st : AppState) :
  ev_httpMethod event = Some "OPTIONS" ->
  handler AppState handle_request event st
  = ({| statusCode := 200;
        resp_headers :=
          Some (<["Access-Control-Allow-Origin" := "*"]>
               (<["Access-Control-Allow-Methods" := "GET,POST,OPTIONS"]>
               (<["Access-Control-Allow-Headers" :=
                    "Content-Type,X-Amz-Date,Authorization,X-Api-Key,X-Amz-Security-Token"]>
               (<["Access-Control-Max-Age" := "86400"]> ∅))));
        resp_body := EmptyString;
        isBase64Encoded := None |}, st).
Proof.
  intros Hm. unfold handler. rewrite normalize_keeps_method.
  unfold is_options. by rewrite Hm.
Qed.

Lemma handler_preflight_witness :
  handler nat counting_app (options_event "/Prod/process") 0%nat
  = (preflight_response, 0%nat).
Proof. apply (handler_preflight nat counting_app (options_event "/Prod/process") 0%nat). reflexivity. Defined.

(** X22: the stage prefix is transparent: a request whose path is
    [/Prod] followed by [p] is handled exactly as the same request with
    path [p], provided [p] does not start with [/Prod] itself (the prefix
    is removed once). *)
Theorem handler_strips_stage_prefix (AppState : Type)
    (handle_request : LambdaEvent -> AppState -> LambdaResponse * AppState)
    (event : LambdaEvent) (p : string) (st : AppState) :
  PyStr.startswith "/Prod" p = false ->
  handler AppState handle_request (with_path ("/Prod" +:+ p) event) st
  = handler AppState handle_request (with_path p event) st.
Proof.
  intros Hp. unfold handler, normalize_event. cbn [with_path ev_path default from_option id].
  rewrite Hp.
  change (PyStr.startswith "/Prod" ("/Prod" +:+ p)) with true.
  reflexivity.
Qed.

Lemma handler_strips_stage_prefix_witness :
  handler nat counting_app (get_event "/Prod/health") 0%nat
  = handler nat counting_app (get_event "/health") 0%nat
  /\ resp_body (fst (handler nat counting_app (get_event "/Prod/health") 0%nat))
     = "/health".
Proof.
  split; [|reflexivity].
  apply (handler_strips_stage_prefix nat counting_app (get_event "/") "/health" 0%nat).
  reflexivity.
Defined.

(** X23: for a request other than OPTIONS the application is called
    once, with the normalized event, and its answer is returned with its
    status code, its body and every header other than the three CORS
    ones unchanged; the application's own values for the three CORS
    headers are overwritten. *)
Theorem handler_passes_response (AppState : Type)
    (handle_request : LambdaEvent -> AppState -> LambdaResponse * AppState)
    (event : LambdaEvent) (st : AppState) :
  ev_httpMethod event <> Some "OPTIONS" ->
  let app := handle_request (normalize_event event) st in
  let answer := handler AppState handle_request event st in
  snd answer = snd app
  /\ statusCode (fst answer) = statusCode (fst app)
  /\ resp_body (fst answer) = resp_body (fst app)
  /\ isBase64Encoded (fst answer) = isBase64Encoded (fst app)
  /\ exists h,
       resp_headers (fst answer) = Some h
       /\ forall k, k <> "Access-Control-Allow-Origin" ->
                    k <> "Access-Control-Allow-Methods" ->
                    k <> "Access-Control-Allow-Headers" ->
                    h !! k = default ∅ (resp_headers (fst app)) !! k.
Proof.
  intros Hm app answer. subst app answer. unfold handler.
  rewrite normalize_keeps_method.
  assert (Ho : is_options event = false).
  { unfold is_options. destruct (ev_httpMethod event) as [m|]; [|reflexivity].
    apply String.eqb_neq. congruence. }
  rewrite Ho. destruct (handle_request (normalize_event event) st) as [response st'].
  cbn [fst snd]. repeat split.
  destruct (with_cors_headers response) as (h & Hh & _ & _ & _ & Hk).
  by exists h.
Qed.

Lemma handler_passes_response_witness :
  snd (handler nat counting_app (get_event "/Prod/health") 0%nat) = 1%nat
  /\ exists h,
       resp_headers (fst (handler nat counting_app (get_event "/Prod/health") 0%nat))
       = Some h
       /\ h !! "Content-Type" = Some "text/html"
       /\ h !! "Access-Control-Allow-Origin" = Some "*".
Proof.
  destruct (handler_passes_response nat counting_app (get_event "/Prod/health") 0%nat)
    as (Hst & _ & _ & _ & h & Hh & Hk); [discriminate|].
  split; [exact Hst|]. exists h. split; [exact Hh|]. split.
  - rewrite Hk by discriminate. reflexivity.
  - revert Hh. vm_compute. by intros [= <-].
Defined.

(** ** Extraction results *)

Section ExtractionMore.

Lemma set_pages_bad_element page_num l :
  forallb is_object l = false -> exists e, set_pages page_num l = Raise e.
Proof.
  induction l as [|v t IH]; [discriminate|]. cbn [forallb].
  destruct v; cbn [is_object andb set_pages]; try (intros _; by eexists).
  intros Ht. destruct (IH Ht) as [e ->]. by eexists.
Qed.





End ExtractionMore.

(** X24: the text export never raises on what extraction returns: every
    block has a text, and the export of the blocks is complete. *)
Theorem export_of_extraction
    `{ModelService} `{ImageCodec} `{JsonReader} `{Documents}
    (api_key pdf_path : string) (s s1 : Sys) (lyrics_data : list Lyric) :
  extract_lyrics_from_pdf api_key pdf_path s = (Ok lyrics_data, s1) ->
  forallb has_text lyrics_data = true
  /\ export_lyrics_text lyrics_data
     = (Ok tt, fold_right String.append EmptyString (export_chunks [] lyrics_data)).
Proof.
  intros He. pose proof (extract_has_text _ _ _ _ _ He) as Ht.
  split; [exact Ht|]. unfold export_lyrics_text.
  by rewrite (export_loop_chunks lyrics_data export_init [] eq_refl Ht).
Qed.

Lemma export_of_extraction_witness :
  export_lyrics_text [la_block]
  = (Ok tt, "la la" +:+ String PyStr.nl ("la" +:+ String PyStr.nl EmptyString)).
Proof.
  apply (proj2 (@export_of_extraction Stubs.scripted Stubs.toy_codec MiniJson.reader
                  Stubs.toy_documents "sk-test" "song.pdf" online_with_pdf
                  offline_with_pdf [la_block] eq_refl)).
Defined.

(** X25: a page gives no fragment at all when the reply's object has no
    list of dicts under [lyrics]: if one element of the list is not a
    dict, the fragments before and after it are discarded with it. *)
Theorem extract_discards_mixed_list `{ModelService} `{JsonReader}
    (api_key img_base64 : string) (page_num : Z) (w : World)
    (reply json_text : string) (d : gmap string json) (l : list json) :
  fst (chat_create api_key (VisionRequest img_base64) w) = Ok reply ->
  re_search_braces reply = Some json_text ->
  json_loads json_text = Ok (JObj d) ->
  d !! "lyrics" = Some (JArr l) ->
  forallb is_object l = false ->
  fst (_extract_lyrics_with_gpt4 api_key img_base64 page_num w) = [].
Proof.
  intros Hc Hm Hj Hl Hbad. unfold _extract_lyrics_with_gpt4.
  destruct (chat_create api_key (VisionRequest img_base64) w) as [r w'].
  cbn [fst] in Hc. subst r. rewrite Hm, Hj. cbn [page_lyrics]. rewrite Hl.
  cbn [default from_option id].
  by destruct (set_pages_bad_element page_num l Hbad) as [e ->].
Qed.

Lemma extract_discards_mixed_list_witness :
  fst (@_extract_lyrics_with_gpt4 Stubs.scripted MiniJson.reader "sk-test" "aW1n" 1
         [Ok reply_with_number]) = [].
Proof.
  apply (@extract_discards_mixed_list Stubs.scripted MiniJson.reader "sk-test" "aW1n" 1
           [Ok reply_with_number] reply_with_number reply_with_number
           (<["lyrics" := JArr [JObj la_fragment; JInt 5]]> ∅)
           [JObj la_fragment; JInt 5]).
  - reflexivity.
  - reflexivity.
  - by vm_compute.
  - reflexivity.
  - reflexivity.
Defined.


